(** * Hardware health monitor: service and client

    A shallow embedding of [monitor_service.py] and [monitor_client.py].

    Python's [float] is IEEE 754 binary64, which is the kernel's primitive
    [float]: literals, [+] and the comparisons below are the very operations
    the interpreter performs, NaN and infinities included.  Threads are
    modelled twice: sequentially, one loop iteration per element of a list of
    inputs (what the random module drew, what the sensor returned, what the
    D-Bus proxy answered), and, for the lock discipline of the simulator, as
    an interleaving of atomic steps of an updater and of any number of
    readers. *)

From Stdlib Require Import ZArith List Bool String Floats Lia.
Import ListNotations.

Set Warnings "-inexact-float,-register-all".

Local Open Scope float_scope.

(** ** Python's comparisons and two-argument [min]/[max] on floats *)

Module PyFloat.

(** [a > b] is [b < a] in IEEE 754; both are false when a NaN is involved. *)
Definition gtb (a b : float) : bool := b <? a.

(** [min(a, b)]: the builtin keeps its first argument unless a later one
    compares strictly smaller. *)
Definition min (a b : float) : float := if b <? a then b else a.

(** [max(a, b)]: the first argument unless a later one compares strictly
    greater. *)
Definition max (a b : float) : float := if gtb b a then b else a.

(** [lo <= x <= hi] as Python evaluates the chained comparison. *)
Definition within (lo hi x : float) : bool := (lo <=? x) && (x <=? hi).

End PyFloat.

(** ** monitor_service.py *)

Definition TEMPERATURE_THRESHOLD : float := 85.0.

Module HardwareSimulator.

(** The fields of the object ([_lock] is the subject of [Module Threads]). *)
Record t : Type := mk {
  _temperature : float;
  _voltage : float;
  _running : bool
}.

Definition __init__ : t :=
  {| _temperature := 65.0; _voltage := 1.1; _running := false |}.

(** [get_sensor_data]: the pair [(temperature, voltage)]. *)
Definition get_sensor_data (self : t) : float * float :=
  (_temperature self, _voltage self).

(** What the [random] module returns during one iteration of the loop:
    [uniform(-0.5, 0.5)], [randint(0, 20)], [uniform(5, 15)] (drawn only
    when the integer is 5) and [uniform(1.05, 1.15)]. *)
Record draws : Type := {
  drift : float;
  roll : Z;
  spike : float;
  volt : float
}.

(** The documented contract of [random.uniform(1.05, 1.15)]: a value [N]
    with [1.05 <= N <= 1.15]. *)
Definition uniform_voltage_contract (d : draws) : Prop :=
  PyFloat.within 1.05 1.15 (volt d) = true.

(** The body of the [while] loop, i.e. the block under [with self._lock]. *)
Definition update (self : t) (d : draws) : t :=
  let temp_drift := drift d in
  let temp_drift :=
    if (roll d =? 5)%Z then temp_drift + spike d else temp_drift in
  let temperature := _temperature self + temp_drift in
  let temperature := PyFloat.max 50.0 (PyFloat.min 95.0 temperature) in
  {| _temperature := temperature;
     _voltage := volt d;
     _running := _running self |}.

(** [_simulation_loop]: one iteration per element of [ds] while [_running]
    holds; the result lists the object's state after each iteration. *)
Fixpoint _simulation_loop (self : t) (ds : list draws) : list t :=
  match ds with
  | [] => []
  | d :: ds' =>
      if _running self
      then let self' := update self d in self' :: _simulation_loop self' ds'
      else []
  end.

Definition start (self : t) : t :=
  if _running self then self
  else {| _temperature := _temperature self;
          _voltage := _voltage self;
          _running := true |}.

Definition stop (self : t) : t :=
  {| _temperature := _temperature self;
     _voltage := _voltage self;
     _running := false |}.

End HardwareSimulator.

Module HealthMonitorService.

Record t : Type := mk {
  _version : string;
  _last_temp_reading : float;
  _shutdown_requested : bool
}.

Definition __init__ : t :=
  {| _version := "1.0.0-prototype";
     _last_temp_reading := 0.0;
     _shutdown_requested := false |}.

(** The condition of the [if] in [_monitor_loop]. *)
Definition crossed (temp last : float) : bool :=
  PyFloat.gtb temp TEMPERATURE_THRESHOLD && (last <=? TEMPERATURE_THRESHOLD).

(** One iteration of [_monitor_loop] on the pair [get_sensor_data]
    returned: the new object and the argument of the
    [TemperatureThresholdExceeded] signal, if it was emitted (the warning
    logged with it and the sleep are not represented). *)
Definition tick (self : t) (data : float * float) : t * option float :=
  let '(temp, _) := data in
  let emitted := if crossed temp (_last_temp_reading self)
                 then Some temp else None in
  ({| _version := _version self;
      _last_temp_reading := temp;
      _shutdown_requested := _shutdown_requested self |}, emitted).

(** [_monitor_loop]: one iteration per sensor pair while shutdown is not
    requested.  The result is the final object and, per iteration, what
    was emitted. *)
Fixpoint _monitor_loop (self : t) (sensor : list (float * float))
  : t * list (option float) :=
  match sensor with
  | [] => (self, [])
  | data :: sensor' =>
      if _shutdown_requested self then (self, [])
      else
        let '(self', e) := tick self data in
        let '(final, es) := _monitor_loop self' sensor' in
        (final, e :: es)
  end.

Definition shutdown (self : t) : t :=
  {| _version := _version self;
     _last_temp_reading := _last_temp_reading self;
     _shutdown_requested := true |}.

(** The D-Bus properties. *)
Definition Temperature (sim : HardwareSimulator.t) : float :=
  fst (HardwareSimulator.get_sensor_data sim).
Definition Voltage (sim : HardwareSimulator.t) : float :=
  snd (HardwareSimulator.get_sensor_data sim).
Definition Version (self : t) : string := _version self.

End HealthMonitorService.

(** ** monitor_client.py *)

(** Exceptions, by the classes the handlers of the program tell apart:
    [except Exception] catches the first, never the other two. *)
Module Py.

Inductive exn : Type :=
| Exception (msg : string)
| KeyboardInterrupt
| SystemExit (code : Z).

Inductive result (A : Type) : Type :=
| Return (a : A)
| Raise (e : exn).
Arguments Return {A} a.
Arguments Raise {A} e.

(** The values a signal callback may receive in [*args]. *)
Inductive value : Type :=
| VNone
| VStr (s : string)
| VInt (z : Z)
| VFloat (f : float)
| VTuple (items : list value).

End Py.

Module HealthMonitorClient.
Import Py.

Definition BUS_NAME : string := "com.example.HardwareHealthMonitor".
Definition SERVICE_INTERFACE : string := "com.example.HealthMonitor".
Definition OBJECT_PATH : string := "/com/example/HealthMonitor".

Inductive level : Type := INFO | WARNING | ERROR | CRITICAL.

(** Log records: plain text, or the arguments of a formatted message
    (the [.2f] rendering of a float is left to the logger). *)
Inductive message : Type :=
| Text (s : string)
| MonitorStatus (temp volt : float) (version : string)
| Alert (current_temp : value)
| UnexpectedFormat (args : list value).

Inductive proxy : Type := Proxy (bus_name object_path : string).

Inductive callback : Type := on_temp_threshold_exceeded.

Record subscription : Type := {
  iface : string;
  signal : string;
  signal_fired : callback
}.

(** The client object ([monitor_proxy], [_running]), the local variable
    [loop] of [run], the callbacks registered on [self.bus], and the log. *)
Record t : Type := mk {
  monitor_proxy : option proxy;
  _running : bool;
  loop : bool;
  subscriptions : list subscription;
  log : list (level * message)
}.

Definition __init__ : t :=
  {| monitor_proxy := None; _running := false; loop := false;
     subscriptions := []; log := [] |}.

(** What the session bus does when asked: [bus.get], [bus.subscribe] and
    [loop.run()] (which returns after [quit], or raises on Ctrl-C). *)
Record bus : Type := {
  get : result proxy;
  subscribe : result unit;
  main_loop_run : result unit
}.

(** A D-Bus property read returns the value or raises the transport's
    error, an [Exception]. *)
Inductive reply (A : Type) : Type :=
| Value (a : A)
| Error (msg : string).
Arguments Value {A} a.
Arguments Error {A} msg.

(** The service's answers to one round of the poll loop. *)
Record answers : Type := {
  Temperature : reply float;
  Voltage : reply float;
  Version : reply string
}.

(** *** Statements: state passing with exceptions *)

Definition M (A : Type) : Type := t -> result A * t.

Definition ret {A} (a : A) : M A := fun self => (Return a, self).

Definition bind {A B} (m : M A) (k : A -> M B) : M B :=
  fun self =>
    match m self with
    | (Return a, self') => k a self'
    | (Raise e, self') => (Raise e, self')
    end.

Definition raise {A} (e : exn) : M A := fun self => (Raise e, self).

Declare Scope py_scope.
Delimit Scope py_scope with py.
Notation "x <- m ;; k" := (bind m (fun x => k))
  (at level 61, m at next level, right associativity) : py_scope.
Notation "m ;; k" := (bind m (fun _ => k))
  (at level 61, right associativity) : py_scope.
Local Open Scope py_scope.

(** [try: body except Exception as e: handler(e)]. *)
Definition try_except_Exception {A} (body : M A) (handler : string -> M A)
  : M A :=
  fun self =>
    match body self with
    | (Raise (Exception msg), self') => handler msg self'
    | r => r
    end.

(** [try: body except KeyboardInterrupt: h1 except Exception as e: h2(e)]. *)
Definition try_except_KeyboardInterrupt_Exception {A}
    (body : M A) (h1 : M A) (h2 : string -> M A) : M A :=
  fun self =>
    match body self with
    | (Raise KeyboardInterrupt, self') => h1 self'
    | (Raise (Exception msg), self') => h2 msg self'
    | r => r
    end.

(** [try: body finally: cleanup]: the cleanup runs on every exit and the
    pending exception, if any, is raised again after it. *)
Definition try_finally {A} (body : M A) (cleanup : M unit) : M A :=
  fun self =>
    match body self with
    | (r, self') =>
        match cleanup self' with
        | (Return _, self'') => (r, self'')
        | (Raise e, self'') => (Raise e, self'')
        end
    end.

Definition logger (lvl : level) (msg : message) : M unit :=
  fun self =>
    (Return tt,
     {| monitor_proxy := monitor_proxy self; _running := _running self;
        loop := loop self; subscriptions := subscriptions self;
        log := log self ++ [(lvl, msg)] |}).

Definition set_monitor_proxy (p : proxy) : M unit :=
  fun self =>
    (Return tt,
     {| monitor_proxy := Some p; _running := _running self;
        loop := loop self; subscriptions := subscriptions self;
        log := log self |}).

Definition set_running (b : bool) : M unit :=
  fun self =>
    (Return tt,
     {| monitor_proxy := monitor_proxy self; _running := b;
        loop := loop self; subscriptions := subscriptions self;
        log := log self |}).

Definition set_loop (b : bool) : M unit :=
  fun self =>
    (Return tt,
     {| monitor_proxy := monitor_proxy self; _running := _running self;
        loop := b; subscriptions := subscriptions self;
        log := log self |}).

Definition attach (s : subscription) : M unit :=
  fun self =>
    (Return tt,
     {| monitor_proxy := monitor_proxy self; _running := _running self;
        loop := loop self; subscriptions := subscriptions self ++ [s];
        log := log self |}).

Definition call {A} (r : result A) : M A := fun self => (r, self).

Definition read {A} (r : reply A) : M A :=
  match r with
  | Value a => ret a
  | Error msg => raise (Exception msg)
  end.

Definition sys_exit {A} (code : Z) : M A := raise (SystemExit code).

(** *** The methods *)

Definition connect (b : bus) : M bool :=
  try_except_Exception
    (p <- call (get b) ;;
     set_monitor_proxy p ;;
     logger INFO (Text "Successfully connected to Health Monitor Service.") ;;
     ret true)
    (fun e =>
       logger ERROR (Text ("Connection to service failed: " ++ e)) ;;
       ret false).

Definition subscribe_to_signals (b : bus) : M unit :=
  try_except_Exception
    (call (subscribe b) ;;
     attach {| iface := SERVICE_INTERFACE;
               signal := "TemperatureThresholdExceeded";
               signal_fired := on_temp_threshold_exceeded |} ;;
     logger INFO (Text "Subscribed to 'TemperatureThresholdExceeded' signal."))
    (fun e =>
       logger ERROR (Text ("Failed to subscribe to signals: " ++ e))).

(** [isinstance(v, tuple) and v], then [v[0]]. *)
Definition first_of_nonempty_tuple (v : value) : option value :=
  match v with
  | VTuple (x :: _) => Some x
  | _ => None
  end.

(** Whether the format specification [.2f] accepts the value, and the
    message of the exception it raises otherwise. *)
Definition formats_as_float (v : value) : bool :=
  match v with
  | VFloat _ | VInt _ => true
  | _ => false
  end.

Definition format_error (v : value) : string :=
  match v with
  | VStr _ => "Unknown format code 'f' for object of type 'str'"
  | VNone => "unsupported format string passed to NoneType.__format__"
  | _ => "unsupported format string passed to tuple.__format__"
  end.

Definition _on_temp_threshold_exceeded (args : list value) : M unit :=
  try_except_Exception
    (match nth_error args 4 with
     | Some a4 =>
         match first_of_nonempty_tuple a4 with
         | Some current_temp =>
             if formats_as_float current_temp
             then logger CRITICAL (Alert current_temp)
             else raise (Exception (format_error current_temp))
         | None => logger WARNING (UnexpectedFormat args)
         end
     | None => logger WARNING (UnexpectedFormat args)
     end)
    (fun e =>
       logger ERROR (Text ("Error handling temperature signal: " ++ e))).

(** The bus invoking every attached callback with the arguments of one
    signal. *)
Fixpoint dispatch (subs : list subscription) (args : list value) : M unit :=
  match subs with
  | [] => ret tt
  | s :: subs' =>
      match signal_fired s with
      | on_temp_threshold_exceeded =>
          _on_temp_threshold_exceeded args ;; dispatch subs' args
      end
  end.

Definition deliver (args : list value) : M unit :=
  fun self => dispatch (subscriptions self) args self.

(** The body of the [while] loop of [_monitor_loop]. *)
Definition poll (a : answers) : M unit :=
  try_except_Exception
    (temp <- read (Temperature a) ;;
     volt <- read (Voltage a) ;;
     version <- read (Version a) ;;
     logger INFO (MonitorStatus temp volt version))
    (fun e =>
       logger ERROR (Text ("Failed to read properties: " ++ e)) ;;
       set_running false).

(** [_monitor_loop]: one iteration per round of answers while [_running]. *)
Fixpoint _monitor_loop (rounds : list answers) : M unit :=
  match rounds with
  | [] => ret tt
  | a :: rounds' =>
      fun self =>
        if _running self
        then (poll a ;; _monitor_loop rounds') self
        else (Return tt, self)
  end.

(** How many iterations [_monitor_loop] performs. *)
Fixpoint iterations (rounds : list answers) (self : t) : nat :=
  match rounds with
  | [] => 0
  | a :: rounds' =>
      if _running self
      then match poll a self with
           | (Return _, self') => S (iterations rounds' self')
           | (Raise _, _) => 1
           end
      else 0
  end.

(** [run_demo] up to the start of the polling thread, whose work is
    [_monitor_loop]. *)
Definition run_demo : M unit :=
  logger INFO (Text "Starting Health Monitor Client demo.") ;;
  set_running true ;;
  logger INFO (Text "Client is now monitoring hardware health. Press Ctrl+C to stop.").

(** [loop.quit()]: asks the main loop to return; nothing of the client
    changes. *)
Definition loop_quit : M unit := ret tt.

Definition run (b : bus) : M unit :=
  set_loop false ;;
  try_finally
    (try_except_KeyboardInterrupt_Exception
       (connected <- connect b ;;
        (if negb connected then sys_exit 1 else ret tt) ;;
        subscribe_to_signals b ;;
        run_demo ;;
        set_loop true ;;
        call (main_loop_run b))
       (logger INFO (Text "Client stopped by user."))
       (fun e => logger ERROR (Text ("Client failed: " ++ e))))
    (set_running false ;;
     (fun self => if loop self then loop_quit self else ret tt self) ;;
     logger INFO (Text "Client has been shut down.")).

(** How the interpreter ends once [main] is over. *)
Inductive termination : Type :=
| Exit (status : Z)
| Traceback (e : exn).

Definition main (b : bus) : termination * t :=
  match run b __init__ with
  | (Return _, self) => (Exit 0, self)
  | (Raise (SystemExit code), self) => (Exit code, self)
  | (Raise e, self) => (Traceback e, self)
  end.

End HealthMonitorClient.

(** ** The lock of the simulator

    [threading.Lock] is taken by its contract: [with self._lock] enters only
    when no thread holds the lock, and leaves it free.  Between entering and
    leaving, every load and store of an attribute is a step of its own, so
    any thread may run between two of them.  One thread runs
    [_simulation_loop]; the readers are the callers of [get_sensor_data]
    (the monitor thread and the handlers of the D-Bus properties). *)

Module Threads.
Import HardwareSimulator.

(** Where the simulation thread stands; the label names its next step. *)
Inductive updater_pc : Type :=
| U_enter                    (* [with self._lock:] *)
| U_add (d : draws)          (* [self._temperature += temp_drift] *)
| U_clamp (d : draws)        (* [self._temperature = max(50.0, min(95.0, ...))] *)
| U_voltage (d : draws)      (* [self._voltage = random.uniform(1.05, 1.15)] *)
| U_leave.                   (* end of the [with] block *)

(** Where a caller of [get_sensor_data] stands. *)
Inductive reader_pc : Type :=
| R_enter                    (* [with self._lock:] *)
| R_temperature              (* load [self._temperature] *)
| R_voltage (temp : float)   (* load [self._voltage] *)
| R_leave (temp volt : float). (* leave the block and return the pair *)

Inductive thread : Type :=
| Updater
| Reader (n : nat).

Record state : Type := {
  temperature : float;
  voltage : float;
  lock : option thread;
  updater : updater_pc;
  readers : nat -> reader_pc;
  (* the pair stored when the object was built and at the end of each
     update, latest first *)
  ticks : list (float * float);
  (* what [get_sensor_data] returned so far, and to whom *)
  returned : list (nat * (float * float))
}.

Definition init : state :=
  {| temperature := _temperature __init__;
     voltage := _voltage __init__;
     lock := None;
     updater := U_enter;
     readers := fun _ => R_enter;
     ticks := [(_temperature __init__, _voltage __init__)];
     returned := [] |}.

(** The scheduler's choice: which thread performs its next step (and, for
    the updater, what [random] draws in the iteration it may begin). *)
Inductive turn : Type :=
| Simulate (d : draws)
| Read (n : nat).

Definition temp_drift (d : draws) : float :=
  if (roll d =? 5)%Z then drift d + spike d else drift d.

Definition set_reader (rs : nat -> reader_pc) (n : nat) (pc : reader_pc)
  : nat -> reader_pc :=
  fun m => if Nat.eqb m n then pc else rs m.

Definition step_updater (d : draws) (s : state) : state :=
  match updater s with
  | U_enter =>
      match lock s with
      | None =>
          {| temperature := temperature s; voltage := voltage s;
             lock := Some Updater; updater := U_add d;
             readers := readers s; ticks := ticks s;
             returned := returned s |}
      | Some _ => s
      end
  | U_add d' =>
      {| temperature := temperature s + temp_drift d';
         voltage := voltage s;
         lock := lock s; updater := U_clamp d';
         readers := readers s; ticks := ticks s;
         returned := returned s |}
  | U_clamp d' =>
      {| temperature := PyFloat.max 50.0 (PyFloat.min 95.0 (temperature s));
         voltage := voltage s;
         lock := lock s; updater := U_voltage d';
         readers := readers s; ticks := ticks s;
         returned := returned s |}
  | U_voltage d' =>
      {| temperature := temperature s; voltage := volt d';
         lock := lock s; updater := U_leave;
         readers := readers s; ticks := ticks s;
         returned := returned s |}
  | U_leave =>
      {| temperature := temperature s; voltage := voltage s;
         lock := None; updater := U_enter;
         readers := readers s;
         ticks := (temperature s, voltage s) :: ticks s;
         returned := returned s |}
  end.

Definition step_reader (n : nat) (s : state) : state :=
  match readers s n with
  | R_enter =>
      match lock s with
      | None =>
          {| temperature := temperature s; voltage := voltage s;
             lock := Some (Reader n); updater := updater s;
             readers := set_reader (readers s) n R_temperature;
             ticks := ticks s; returned := returned s |}
      | Some _ => s
      end
  | R_temperature =>
      {| temperature := temperature s; voltage := voltage s;
         lock := lock s; updater := updater s;
         readers := set_reader (readers s) n (R_voltage (temperature s));
         ticks := ticks s; returned := returned s |}
  | R_voltage temp =>
      {| temperature := temperature s; voltage := voltage s;
         lock := lock s; updater := updater s;
         readers := set_reader (readers s) n (R_leave temp (voltage s));
         ticks := ticks s; returned := returned s |}
  | R_leave temp volt =>
      {| temperature := temperature s; voltage := voltage s;
         lock := None; updater := updater s;
         readers := set_reader (readers s) n R_enter;
         ticks := ticks s;
         returned := (n, (temp, volt)) :: returned s |}
  end.

(** One step of the chosen thread; a thread waiting for the lock does not
    move. *)
Definition step (s : state) (t : turn) : state :=
  match t with
  | Simulate d => step_updater d s
  | Read n => step_reader n s
  end.

Definition run (schedule : list turn) : state := fold_left step schedule init.

(** What holds between any two steps. *)
Definition consistent (s : state) : Prop :=
  (forall n p, In (n, p) (returned s) -> In p (ticks s)) /\
  match lock s with
  | None =>
      updater s = U_enter /\
      (forall n, readers s n = R_enter) /\
      In (temperature s, voltage s) (ticks s)
  | Some Updater =>
      updater s <> U_enter /\
      (forall n, readers s n = R_enter)
  | Some (Reader k) =>
      updater s = U_enter /\
      In (temperature s, voltage s) (ticks s) /\
      (forall n, n <> k -> readers s n = R_enter) /\
      match readers s k with
      | R_enter => False
      | R_temperature => True
      | R_voltage temp => temp = temperature s
      | R_leave temp volt => (temp, volt) = (temperature s, voltage s)
      end
  end.

End Threads.

(** ** Notions the properties are stated with *)

(** The monitor fed temperatures, with the voltages [volt] gives them. *)
Definition feed (volt : float -> float) (temps : list float)
  : list (float * float) :=
  map (fun temp => (temp, volt temp)) temps.

(** How many signals a run emitted. *)
Definition count_events (es : list (option float)) : nat :=
  List.length (filter (fun e => match e with Some _ => true | None => false end) es).

(** The temperature observed on the previous tick, if there was one. *)
Definition previous_observation (sensor : list (float * float)) : option float :=
  match rev sensor with
  | [] => None
  | (temp, _) :: _ => Some temp
  end.

(** Temperature and voltage within their ranges. *)
Definition in_range (sim : HardwareSimulator.t) : Prop :=
  PyFloat.within 50.0 95.0 (HardwareSimulator._temperature sim) = true /\
  PyFloat.within 1.05 1.15 (HardwareSimulator._voltage sim) = true.

(** The message of the first read of a round that fails, in the order the
    poll loop reads. *)
Definition failure (a : HealthMonitorClient.answers) : option string :=
  match HealthMonitorClient.Temperature a with
  | HealthMonitorClient.Error msg => Some msg
  | HealthMonitorClient.Value _ =>
      match HealthMonitorClient.Voltage a with
      | HealthMonitorClient.Error msg => Some msg
      | HealthMonitorClient.Value _ =>
          match HealthMonitorClient.Version a with
          | HealthMonitorClient.Error msg => Some msg
          | HealthMonitorClient.Value _ => None
          end
      end
  end.

(** A session bus on which the service cannot be reached: [bus.get] raises
    the transport's error. *)
Definition unreachable (msg : string) (sub run_loop : Py.result unit)
  : HealthMonitorClient.bus :=
  {| HealthMonitorClient.get := Py.Raise (Py.Exception msg);
     HealthMonitorClient.subscribe := sub;
     HealthMonitorClient.main_loop_run := run_loop |}.

(** The client after more records were logged, and after its [_running]
    flag was cleared. *)
Definition with_log (self : HealthMonitorClient.t)
    (records : list (HealthMonitorClient.level * HealthMonitorClient.message))
  : HealthMonitorClient.t :=
  {| HealthMonitorClient.monitor_proxy := HealthMonitorClient.monitor_proxy self;
     HealthMonitorClient._running := HealthMonitorClient._running self;
     HealthMonitorClient.loop := HealthMonitorClient.loop self;
     HealthMonitorClient.subscriptions := HealthMonitorClient.subscriptions self;
     HealthMonitorClient.log := HealthMonitorClient.log self ++ records |}.

Definition stopped (self : HealthMonitorClient.t) : HealthMonitorClient.t :=
  {| HealthMonitorClient.monitor_proxy := HealthMonitorClient.monitor_proxy self;
     HealthMonitorClient._running := false;
     HealthMonitorClient.loop := HealthMonitorClient.loop self;
     HealthMonitorClient.subscriptions := HealthMonitorClient.subscriptions self;
     HealthMonitorClient.log := HealthMonitorClient.log self |}.

(** ** Notions for the further properties *)

(** What an edge detector with threshold 85.0 emits on a list of
    temperatures, [last] being the temperature before the first. *)
Fixpoint rising_edges (last : float) (temps : list float)
  : list (option float) :=
  match temps with
  | [] => []
  | temp :: temps' =>
      (if (85.0 <? temp) && (last <=? 85.0) then Some temp else None)
      :: rising_edges temp temps'
  end.

(** The monitor with another stored reading. *)
Definition with_last_reading (self : HealthMonitorService.t) (temp : float)
  : HealthMonitorService.t :=
  {| HealthMonitorService._version := HealthMonitorService._version self;
     HealthMonitorService._last_temp_reading := temp;
     HealthMonitorService._shutdown_requested :=
       HealthMonitorService._shutdown_requested self |}.


(** The pairs a reader of the simulator can get while it goes through the
    updates [ds]: the pair it was built with and the pair after each
    update. *)
Definition snapshots (ds : list HardwareSimulator.draws)
  : list (float * float) :=
  HardwareSimulator.get_sensor_data HardwareSimulator.__init__
  :: map HardwareSimulator.get_sensor_data
       (HardwareSimulator._simulation_loop
          (HardwareSimulator.start HardwareSimulator.__init__) ds).


(** Whether a call of the bus asks the interpreter to exit. *)
Definition exits {A : Type} (r : Py.result A) : bool :=
  match r with
  | Py.Raise (Py.SystemExit _) => true
  | _ => false
  end.

(** Whether a call raises an exception of class [Exception]. *)
Definition fails {A : Type} (r : Py.result A) : bool :=
  match r with
  | Py.Raise (Py.Exception _) => true
  | _ => false
  end.

(** The simulator after a sequence of updates, with no other thread
    around. *)
Definition updated (ds : list HardwareSimulator.draws) : HardwareSimulator.t :=
  fold_left HardwareSimulator.update ds
    (HardwareSimulator.start HardwareSimulator.__init__).

(** What the interleaved updater has stored, as the sequential simulator
    that went through the updates [ds] would have it: the pairs at the
    ends of the updates are the sequential ones, and the attributes stand
    where the current update has brought them.  [P] holds of all draws
    involved. *)
Definition sequential (P : HardwareSimulator.draws -> Prop)
    (s : Threads.state) : Prop :=
  exists ds : list HardwareSimulator.draws,
    Forall P ds /\
    rev (Threads.ticks s)
    = HardwareSimulator.get_sensor_data HardwareSimulator.__init__
      :: map HardwareSimulator.get_sensor_data
           (HardwareSimulator._simulation_loop
              (HardwareSimulator.start HardwareSimulator.__init__) ds) /\
    hd (0, 0) (Threads.ticks s)
    = HardwareSimulator.get_sensor_data (updated ds) /\
    Threads.voltage s
    = match Threads.updater s with
      | Threads.U_leave => Threads.voltage s
      | _ => HardwareSimulator._voltage (updated ds)
      end /\
    match Threads.updater s with
    | Threads.U_enter =>
        Threads.temperature s = HardwareSimulator._temperature (updated ds)
    | Threads.U_add d =>
        P d /\
        Threads.temperature s = HardwareSimulator._temperature (updated ds)
    | Threads.U_clamp d =>
        P d /\
        Threads.temperature s
        = HardwareSimulator._temperature (updated ds) + Threads.temp_drift d
    | Threads.U_voltage d =>
        P d /\
        Threads.temperature s
        = HardwareSimulator._temperature
            (HardwareSimulator.update (updated ds) d)
    | Threads.U_leave =>
        exists d,
          P d /\
          (Threads.temperature s, Threads.voltage s)
          = HardwareSimulator.get_sensor_data
              (HardwareSimulator.update (updated ds) d)
    end.

(** ** The entry point of the service *)

Module ServiceMain.
Import Py.

Inductive level : Type := INFO | WARNING | ERROR.

(** The local variables of [main] and the log.  The two objects are held
    as [main] sees them: it reads and writes their flags only. *)
Record frame : Type := {
  loop : bool;
  service : option HealthMonitorService.t;
  simulator : option HardwareSimulator.t;
  log : list (level * string)
}.

Definition entry : frame :=
  {| loop := false; service := None; simulator := None; log := [] |}.

(** What the transport does when asked: [SessionBus()], [bus.publish] and
    [loop.run()]. *)
Record bus : Type := {
  session : result unit;
  publish : result unit;
  main_loop_run : result unit
}.

Definition M (A : Type) : Type := frame -> result A * frame.

Definition ret {A} (a : A) : M A := fun f => (Return a, f).

Definition bind {A B} (m : M A) (k : A -> M B) : M B :=
  fun f =>
    match m f with
    | (Return a, f') => k a f'
    | (Raise e, f') => (Raise e, f')
    end.

Definition raise {A} (e : exn) : M A := fun f => (Raise e, f).

Declare Scope service_scope.
Delimit Scope service_scope with service.
Notation "m ;; k" := (bind m (fun _ => k))
  (at level 61, right associativity) : service_scope.
Local Open Scope service_scope.

Definition call {A} (r : result A) : M A := fun f => (r, f).

Definition sys_exit {A} (code : Z) : M A := raise (SystemExit code).

(** [try: body except KeyboardInterrupt: h1 except Exception as e: h2(e)]. *)
Definition try_except_KeyboardInterrupt_Exception {A}
    (body : M A) (h1 : M A) (h2 : string -> M A) : M A :=
  fun f =>
    match body f with
    | (Raise KeyboardInterrupt, f') => h1 f'
    | (Raise (Exception msg), f') => h2 msg f'
    | r => r
    end.

(** [try: body finally: cleanup]. *)
Definition try_finally {A} (body : M A) (cleanup : M unit) : M A :=
  fun f =>
    match body f with
    | (r, f') =>
        match cleanup f' with
        | (Return _, f'') => (r, f'')
        | (Raise e, f'') => (Raise e, f'')
        end
    end.

Definition logger (lvl : level) (msg : string) : M unit :=
  fun f =>
    (Return tt,
     {| loop := loop f; service := service f; simulator := simulator f;
        log := log f ++ [(lvl, msg)] |}).

Definition set_simulator (sim : HardwareSimulator.t) : M unit :=
  fun f =>
    (Return tt,
     {| loop := loop f; service := service f; simulator := Some sim;
        log := log f |}).

Definition set_service (svc : HealthMonitorService.t) : M unit :=
  fun f =>
    (Return tt,
     {| loop := loop f; service := Some svc; simulator := simulator f;
        log := log f |}).

Definition set_loop (b : bool) : M unit :=
  fun f =>
    (Return tt,
     {| loop := b; service := service f; simulator := simulator f;
        log := log f |}).

(** [simulator = HardwareSimulator()]. *)
Definition new_simulator : M unit :=
  set_simulator HardwareSimulator.__init__ ;;
  logger INFO "Hardware simulator initialized.".

(** [simulator.start()]: the thread is started, and the start logged, only
    when the simulator was not running. *)
Definition simulator_start : M unit :=
  fun f =>
    match simulator f with
    | Some sim =>
        if HardwareSimulator._running sim then ret tt f
        else (set_simulator (HardwareSimulator.start sim) ;;
              logger INFO "Hardware simulation thread started.") f
    | None => ret tt f
    end.

(** [service = HealthMonitorService(simulator)]. *)
Definition new_service : M unit :=
  set_service HealthMonitorService.__init__ ;;
  logger INFO "Health Monitor D-Bus service initialized.".

(** [if simulator: simulator.stop()]. *)
Definition simulator_stop : M unit :=
  fun f =>
    match simulator f with
    | Some sim =>
        (set_simulator (HardwareSimulator.stop sim) ;;
         logger INFO "Hardware simulation thread stopped.") f
    | None => ret tt f
    end.

(** [if service: service.shutdown()]. *)
Definition service_shutdown : M unit :=
  fun f =>
    match service f with
    | Some svc =>
        (set_service (HealthMonitorService.shutdown svc) ;;
         logger INFO "Shutdown requested for D-Bus service.") f
    | None => ret tt f
    end.

(** [if loop: loop.quit()]: nothing of the frame changes. *)
Definition loop_quit : M unit := ret tt.

Definition main_function (b : bus) : M unit :=
  try_finally
    (try_except_KeyboardInterrupt_Exception
       (new_simulator ;;
        simulator_start ;;
        new_service ;;
        call (session b) ;;
        call (publish b) ;;
        logger INFO "'com.example.HardwareHealthMonitor' service running at '/com/example/HealthMonitor'. Press Ctrl+C to stop." ;;
        set_loop true ;;
        call (main_loop_run b))
       (logger INFO "Service stopped by user.")
       (fun e => logger ERROR ("Service failed: " ++ e) ;; sys_exit 1))
    (simulator_stop ;;
     service_shutdown ;;
     (fun f => if loop f then loop_quit f else ret tt f) ;;
     logger INFO "Service has been shut down.").

(** How the interpreter ends once [main] is over. *)
Inductive termination : Type :=
| Exit (status : Z)
| Traceback (e : exn).

Definition main (b : bus) : termination * frame :=
  match main_function b entry with
  | (Return _, f) => (Exit 0, f)
  | (Raise (SystemExit code), f) => (Exit code, f)
  | (Raise e, f) => (Traceback e, f)
  end.


End ServiceMain.

(** * Properties *)

(** ** Comparisons of floats *)

Lemma SFcompare_swap (x y : spec_float) :
  SFcompare y x = option_map CompOpp (SFcompare x y).
Proof.
  destruct x as [sx|sx| |sx mx ex], y as [sy|sy| |sy my ey]; simpl;
    try reflexivity;
    try (destruct sx; reflexivity); try (destruct sy; reflexivity);
    try (destruct sx, sy; reflexivity).
  destruct sx, sy; simpl; try reflexivity;
    rewrite (Z.compare_antisym ex ey); destruct (ex ?= ey)%Z; simpl;
    try reflexivity.
  - rewrite CompOpp_involutive.
    exact (f_equal Some (Pos.compare_cont_antisym my mx Eq)).
  - exact (f_equal Some (eq_sym (Pos.compare_cont_antisym mx my Eq))).
Qed.

Lemma ltb_leb_false (x y : float) : (x <? y) = true -> (y <=? x) = false.
Proof.
  rewrite ltb_spec, leb_spec. unfold SFltb, SFleb.
  rewrite (SFcompare_swap (Prim2SF x) (Prim2SF y)).
  destruct (SFcompare (Prim2SF x) (Prim2SF y)) as [[ | | ]|]; simpl;
    congruence.
Qed.

Lemma ltb_leb (x y : float) : (x <? y) = true -> (x <=? y) = true.
Proof.
  rewrite ltb_spec, leb_spec. unfold SFltb, SFleb.
  destruct (SFcompare (Prim2SF x) (Prim2SF y)) as [[ | | ]|]; congruence.
Qed.

(** ** The threshold monitor *)

Section MonitorLoop.
Import HealthMonitorService.

Lemma tick_emitted (self : t) (temp volt : float) :
  snd (tick self (temp, volt))
  = if crossed temp (_last_temp_reading self) then Some temp else None.
Proof. reflexivity. Qed.

Lemma tick_last (self : t) (temp volt : float) :
  _last_temp_reading (fst (tick self (temp, volt))) = temp.
Proof. reflexivity. Qed.

Lemma tick_flag (self : t) (data : float * float) :
  _shutdown_requested (fst (tick self data)) = _shutdown_requested self.
Proof. destruct data; reflexivity. Qed.

Lemma loop_cons (self : t) (data : float * float) (sensor : list (float * float)) :
  _shutdown_requested self = false ->
  _monitor_loop self (data :: sensor)
  = (fst (_monitor_loop (fst (tick self data)) sensor),
     snd (tick self data) :: snd (_monitor_loop (fst (tick self data)) sensor)).
Proof.
  intros Hrun. simpl. rewrite Hrun.
  destruct (tick self data) as [self' e]. simpl.
  destruct (_monitor_loop self' sensor); reflexivity.
Qed.

Lemma loop_stopped (self : t) (sensor : list (float * float)) :
  _shutdown_requested self = true -> _monitor_loop self sensor = (self, []).
Proof. intros Hstop. destruct sensor; simpl; [|rewrite Hstop]; reflexivity. Qed.

(** After a run the stored reading is that of the last pair read. *)
Lemma loop_last (sensor : list (float * float)) :
  forall (self : t) (temp volt : float),
    _shutdown_requested self = false ->
    _last_temp_reading (fst (_monitor_loop self (sensor ++ [(temp, volt)])))
    = temp.
Proof.
  induction sensor as [|data sensor IH]; intros self temp volt Hrun.
  - simpl app. rewrite loop_cons by assumption. reflexivity.
  - simpl app. rewrite loop_cons by assumption. simpl fst.
    apply IH. now rewrite tick_flag.
Qed.

(** What a run emits at a tick that has a predecessor in the run. *)
Lemma loop_emits (before : list (float * float)) :
  forall (self : t) (previous v1 current v2 : float)
         (after : list (float * float)),
    _shutdown_requested self = false ->
    nth_error
      (snd (_monitor_loop self
              (before ++ (previous, v1) :: (current, v2) :: after)))
      (S (List.length before))
    = Some (if crossed current previous then Some current else None).
Proof.
  induction before as [|data before IH];
    intros self previous v1 current v2 after Hrun.
  - simpl app. rewrite loop_cons by assumption.
    rewrite loop_cons by (now rewrite tick_flag). reflexivity.
  - simpl app. rewrite loop_cons by assumption. simpl.
    apply IH. now rewrite tick_flag.
Qed.

Lemma crossed_iff (temp last : float) :
  crossed temp last = true
  <-> (last <=? 85.0) = true /\ PyFloat.gtb temp 85.0 = true.
Proof.
  unfold crossed, TEMPERATURE_THRESHOLD. rewrite andb_true_iff. tauto.
Qed.

(** A reading above the threshold is not at or below it. *)
Lemma crossed_sustained (temp last : float) :
  PyFloat.gtb last 85.0 = true -> crossed temp last = false.
Proof.
  unfold crossed, PyFloat.gtb, TEMPERATURE_THRESHOLD. intros Habove.
  rewrite (ltb_leb_false _ _ Habove). apply andb_false_r.
Qed.

Lemma crossed_same (temp : float) : crossed temp temp = false.
Proof.
  unfold crossed, PyFloat.gtb, TEMPERATURE_THRESHOLD.
  destruct (85.0 <? temp) eqn:Habove; [|reflexivity].
  now rewrite (ltb_leb_false _ _ Habove).
Qed.

Lemma emitted_iff (temp last : float) :
  Some (if crossed temp last then Some temp else None) = Some (Some temp)
  <-> (last <=? 85.0) = true /\ PyFloat.gtb temp 85.0 = true.
Proof.
  rewrite <- crossed_iff.
  destruct (crossed temp last); split; congruence.
Qed.

Lemma emitted_cases (temp last : float) :
  let e := Some (if crossed temp last then Some temp else None) in
  e = Some (Some temp) \/ e = Some None.
Proof. simpl. destruct (crossed temp last); auto. Qed.

End MonitorLoop.

Section MonitorProperties.
Import HealthMonitorService.

(** C1. At every tick of the monitor the signal is emitted exactly when
    the previously read temperature is [<= 85.0] and the one just read is
    [> 85.0]: at the first tick of a run against the stored
    [_last_temp_reading], at every later tick against the temperature
    read one tick before.  While two consecutive readings are both above
    85.0, the later tick emits nothing. *)
Theorem event_exactly_on_rising_edge :
  forall (self : t) (before after : list (float * float))
         (previous v1 current v2 : float),
    _shutdown_requested self = false ->
    let first :=
      nth_error (snd (_monitor_loop self ((current, v2) :: after))) 0 in
    let later :=
      nth_error
        (snd (_monitor_loop self
                (before ++ (previous, v1) :: (current, v2) :: after)))
        (S (List.length before)) in
    (first = Some (Some current)
     <-> (_last_temp_reading self <=? 85.0) = true
         /\ PyFloat.gtb current 85.0 = true) /\
    (first = Some (Some current) \/ first = Some None) /\
    (later = Some (Some current)
     <-> (previous <=? 85.0) = true /\ PyFloat.gtb current 85.0 = true) /\
    (later = Some (Some current) \/ later = Some None) /\
    (PyFloat.gtb previous 85.0 = true ->
     PyFloat.gtb current 85.0 = true ->
     later = Some None).
Proof.
  intros self before after previous v1 current v2 Hrun first later.
  assert (Hfirst : first = Some (if crossed current (_last_temp_reading self)
                                 then Some current else None)).
  { unfold first. rewrite loop_cons by assumption. reflexivity. }
  assert (Hlater : later = Some (if crossed current previous
                                 then Some current else None)).
  { unfold later. now apply loop_emits. }
  rewrite Hfirst, Hlater. clear first later Hfirst Hlater.
  split; [apply emitted_iff|].
  split; [apply emitted_cases|].
  split; [apply emitted_iff|].
  split; [apply emitted_cases|].
  intros Hprev _. now rewrite (crossed_sustained current previous Hprev).
Qed.

Lemma event_exactly_on_rising_edge_witness :
  _shutdown_requested __init__ = false /\
  nth_error
    (snd (_monitor_loop __init__
            ([(80, 1.1)] ++ (83, 1.1) :: (86, 1.1) :: [(90, 1.1)])))
    (S (List.length [(80, 1.1)]))
  = Some (Some 86).
Proof.
  split; [reflexivity|].
  apply (event_exactly_on_rising_edge
           __init__ [(80, 1.1)] [(90, 1.1)] 83 1.1 86 1.1 eq_refl).
  split; reflexivity.
Defined.

(** C2. Fed [80, 83, 86, 90, 84, 87, 82], one reading per tick and
    whatever the voltages, a freshly built monitor emits exactly two
    signals: at the third tick (83 to 86) with argument 86 and at the
    sixth tick (84 to 87) with argument 87; no other tick emits. *)
Theorem scripted_sequence_fires_twice :
  forall volt : float -> float,
    let events :=
      snd (_monitor_loop __init__ (feed volt [80; 83; 86; 90; 84; 87; 82])) in
    events = [None; None; Some 86; None; None; Some 87; None] /\
    count_events events = 2%nat.
Proof. intros volt. split; reflexivity. Qed.

(** C4. A reading equal to 85.0 does not exceed the threshold on either
    side: from a stored reading of 85.0, reading 85.0 emits nothing and
    reading 85.1 emits the signal; more generally a current reading of
    85.0 never emits, and a stored reading of 85.0 lets every reading
    above 85.0 emit. *)
Theorem threshold_equality_is_not_exceeding :
  forall (version : string) (stop : bool) (volt : float),
    let at_threshold := mk version 85.0 stop in
    snd (tick at_threshold (85.0, volt)) = None /\
    snd (tick at_threshold (85.1, volt)) = Some 85.1 /\
    (forall self : t, snd (tick self (85.0, volt)) = None) /\
    (forall temp : float,
        snd (tick at_threshold (temp, volt))
        = if PyFloat.gtb temp 85.0 then Some temp else None).
Proof.
  intros version stop volt at_threshold. repeat split.
  intros temp. rewrite tick_emitted. unfold crossed, at_threshold. simpl.
  unfold TEMPERATURE_THRESHOLD.
  replace (85.0 <=? 85.0) with true by reflexivity.
  now rewrite andb_true_r.
Qed.

(** C5. Evaluating the same reading twice in a row emits at most one
    signal: the second evaluation, whose stored reading is that same
    value, never emits. *)
Theorem repeated_reading_fires_at_most_once :
  forall (self : t) (x volt volt' : float),
    snd (tick (fst (tick self (x, volt))) (x, volt')) = None /\
    (count_events
       [snd (tick self (x, volt));
        snd (tick (fst (tick self (x, volt))) (x, volt'))] <= 1)%nat /\
    (count_events (snd (_monitor_loop self [(x, volt); (x, volt')])) <= 1)%nat.
Proof.
  intros self x volt volt'.
  assert (Hsecond : snd (tick (fst (tick self (x, volt))) (x, volt')) = None).
  { rewrite tick_emitted, tick_last. now rewrite crossed_same. }
  split; [exact Hsecond|]. split.
  - rewrite Hsecond.
    destruct (snd (tick self (x, volt))); unfold count_events; simpl; lia.
  - destruct (_shutdown_requested self) eqn:Hflag.
    + rewrite loop_stopped by assumption. unfold count_events. simpl. lia.
    + rewrite loop_cons by assumption.
      rewrite loop_cons by (now rewrite tick_flag).
      cbn [snd]. rewrite Hsecond.
      destruct (snd (tick self (x, volt))); unfold count_events; simpl; lia.
Qed.

(** C6 as stated: whatever the monitor has read so far, the stored
    reading is the temperature observed on the previous tick.  It fails
    before the first tick: no tick has observed anything, and the field
    holds the 0.0 of [__init__]. *)
Lemma last_reading_before_first_tick :
  ~ (forall sensor : list (float * float),
        previous_observation sensor
        = Some (_last_temp_reading (fst (_monitor_loop __init__ sensor)))).
Proof. intros H. specialize (H []). discriminate H. Qed.

(** C6, amended. After every completed tick the stored reading is the
    temperature that tick observed, which is the previous one when the
    next tick evaluates; before the first tick it is 0.0. *)
Theorem last_reading_is_previous_observation :
  forall (sensor : list (float * float)) (temp volt : float),
    let self := fst (_monitor_loop __init__ (sensor ++ [(temp, volt)])) in
    _last_temp_reading self = temp /\
    previous_observation (sensor ++ [(temp, volt)])
    = Some (_last_temp_reading self) /\
    _last_temp_reading (fst (_monitor_loop __init__ [])) = 0.0.
Proof.
  intros sensor temp volt self.
  assert (H : _last_temp_reading self = temp)
    by (apply loop_last; reflexivity).
  repeat split; [exact H|].
  unfold previous_observation. rewrite rev_app_distr. simpl. now rewrite H.
Qed.

Lemma loop_ignores_voltage (s1 : list (float * float)) :
  forall (self : t) (s2 : list (float * float)),
    map fst s1 = map fst s2 ->
    _monitor_loop self s1 = _monitor_loop self s2.
Proof.
  induction s1 as [|[t1 v1] s1 IH]; intros self [|[t2 v2] s2] Heq;
    try discriminate; [reflexivity|].
  simpl in Heq. injection Heq as Ht Hrest. subst t2.
  simpl. destruct (_shutdown_requested self); [reflexivity|].
  now rewrite (IH _ s2 Hrest).
Qed.

(** C10. Two runs of the monitor that read the same temperatures emit the
    same signals with the same arguments at the same ticks, whatever the
    voltages read along. *)
Theorem events_ignore_voltage :
  forall (self : t) (run1 run2 : list (float * float)),
    map fst run1 = map fst run2 ->
    snd (_monitor_loop self run1) = snd (_monitor_loop self run2).
Proof.
  intros self run1 run2 Heq. now rewrite (loop_ignores_voltage run1 self run2).
Qed.

Lemma events_ignore_voltage_witness :
  map fst [(84, 1.05); (86, 1.07)] = map fst [(84, 1.15); (86, 1.1)] /\
  snd (_monitor_loop __init__ [(84, 1.05); (86, 1.07)])
  = snd (_monitor_loop __init__ [(84, 1.15); (86, 1.1)]).
Proof.
  split; [reflexivity|].
  apply (events_ignore_voltage __init__); reflexivity.
Defined.

End MonitorProperties.

(** ** The simulator *)

Section SimulatorProperties.
Import HardwareSimulator.

(** The clamp lands in [50.0, 95.0] for every float, NaN and the
    infinities included (a NaN compares false and is replaced by 95.0). *)
Lemma clamp_within (x : float) :
  PyFloat.within 50.0 95.0 (PyFloat.max 50.0 (PyFloat.min 95.0 x)) = true.
Proof.
  unfold PyFloat.within, PyFloat.max, PyFloat.min, PyFloat.gtb.
  destruct (x <? 95.0) eqn:Hhigh.
  - destruct (50.0 <? x) eqn:Hlow.
    + now rewrite (ltb_leb _ _ Hlow), (ltb_leb _ _ Hhigh).
    + reflexivity.
  - reflexivity.
Qed.

Lemma update_in_range (self : t) (d : draws) :
  uniform_voltage_contract d -> in_range (update self d).
Proof.
  intros Hvolt. split; [apply clamp_within | exact Hvolt].
Qed.

Lemma start_running (self : t) : _running (start self) = true.
Proof. unfold start. destruct (_running self) eqn:E; [exact E|reflexivity]. Qed.

Lemma update_running (self : t) (d : draws) :
  _running (update self d) = _running self.
Proof. reflexivity. Qed.

Lemma loop_in_range (ds : list draws) :
  forall self : t,
    _running self = true ->
    Forall uniform_voltage_contract ds ->
    Forall in_range (_simulation_loop self ds) /\
    List.length (_simulation_loop self ds) = List.length ds.
Proof.
  induction ds as [|d ds IH]; intros self Hrun Hds.
  - split; [constructor|reflexivity].
  - inversion Hds as [|d' ds' Hd Hds']; subst.
    simpl. rewrite Hrun.
    destruct (IH (update self d) Hrun Hds') as [Hall Hlen].
    split.
    + constructor; [now apply update_in_range | exact Hall].
    + simpl. now rewrite Hlen.
Qed.

(** C3. Once started, the simulation loop performs one update per set of
    draws, and after every one of them the stored temperature is within
    [50.0, 95.0] and the stored voltage within [1.05, 1.15], whatever the
    temperature before and whatever drift, roll and spike were drawn;
    [uniform(1.05, 1.15)] is taken by its contract. *)
Theorem sensor_ranges_after_every_update :
  forall (self : t) (ds : list draws),
    Forall uniform_voltage_contract ds ->
    Forall in_range (_simulation_loop (start self) ds) /\
    List.length (_simulation_loop (start self) ds) = List.length ds /\
    (forall d, In d ds -> in_range (update self d)).
Proof.
  intros self ds Hds.
  destruct (loop_in_range ds (start self) (start_running self) Hds)
    as [Hall Hlen].
  split; [exact Hall|]. split; [exact Hlen|].
  intros d Hd. apply update_in_range.
  rewrite Forall_forall in Hds. now apply Hds.
Qed.

Lemma sensor_ranges_after_every_update_witness :
  Forall uniform_voltage_contract
    [ {| drift := 0.5; roll := 5; spike := 15; volt := 1.15 |};
      {| drift := 0.5; roll := 5; spike := 15; volt := 1.05 |};
      {| drift := -0.5; roll := 4; spike := 5; volt := 1.1 |} ] /\
  Forall in_range
    (_simulation_loop (start __init__)
       [ {| drift := 0.5; roll := 5; spike := 15; volt := 1.15 |};
         {| drift := 0.5; roll := 5; spike := 15; volt := 1.05 |};
         {| drift := -0.5; roll := 4; spike := 5; volt := 1.1 |} ]).
Proof.
  assert (H : Forall uniform_voltage_contract
    [ {| drift := 0.5; roll := 5; spike := 15; volt := 1.15 |};
      {| drift := 0.5; roll := 5; spike := 15; volt := 1.05 |};
      {| drift := -0.5; roll := 4; spike := 5; volt := 1.1 |} ]).
  { repeat constructor. }
  split; [exact H|].
  apply (sensor_ranges_after_every_update __init__ _ H).
Defined.

(** The third update of the run above, clamped at the upper bound. *)
Example clamped_at_upper_bound :
  map _temperature
    (_simulation_loop (start __init__)
       [ {| drift := 0.5; roll := 5; spike := 15; volt := 1.15 |};
         {| drift := 0.5; roll := 5; spike := 15; volt := 1.05 |};
         {| drift := -0.5; roll := 4; spike := 5; volt := 1.1 |} ])
  = [80.5; 95; 94.5].
Proof. reflexivity. Qed.

End SimulatorProperties.

(** ** The client *)

Section ClientProperties.
Import Py HealthMonitorClient.

Lemma with_log_nil (self : t) : with_log self [] = self.
Proof. destruct self. unfold with_log. simpl. now rewrite app_nil_r. Qed.

Lemma with_log_app (self : t) (r1 r2 : list (level * message)) :
  with_log (with_log self r1) r2 = with_log self (r1 ++ r2).
Proof. unfold with_log. simpl. now rewrite app_assoc. Qed.

(** A round with a failing read: the error is logged and the flag
    cleared; nothing else changes and nothing is raised. *)
Lemma poll_failure (a : answers) (msg : string) (self : t) :
  failure a = Some msg ->
  poll a self
  = (Return tt,
     stopped (with_log self
                [(ERROR, Text ("Failed to read properties: " ++ msg))])).
Proof.
  unfold failure. destruct a as [[temp|e1] [volt|e2] [version|e3]]; simpl;
    intros H; inversion H; subst; reflexivity.
Qed.

Lemma loop_not_running (rounds : list answers) (self : t) :
  _running self = false -> _monitor_loop rounds self = (Return tt, self).
Proof. intros H. destruct rounds; simpl; [|rewrite H]; reflexivity. Qed.

Lemma iterations_not_running (rounds : list answers) (self : t) :
  _running self = false -> iterations rounds self = 0%nat.
Proof. intros H. destruct rounds; simpl; [|rewrite H]; reflexivity. Qed.

(** The callback on a well-formed signal: one CRITICAL record. *)
Lemma callback_alert (sender obj ifc sig : value) (temp : float) (self : t) :
  _on_temp_threshold_exceeded
    [sender; obj; ifc; sig; VTuple [VFloat temp]] self
  = (Return tt, with_log self [(CRITICAL, Alert (VFloat temp))]).
Proof. reflexivity. Qed.

Lemma dispatch_alert (sender obj ifc sig : value) (temp : float)
      (subs : list subscription) :
  forall self : t,
    dispatch subs [sender; obj; ifc; sig; VTuple [VFloat temp]] self
    = (Return tt,
       with_log self
         (map (fun _ => (CRITICAL, Alert (VFloat temp))) subs)).
Proof.
  induction subs as [|s subs IH]; intros self.
  - simpl. now rewrite with_log_nil.
  - simpl. destruct (signal_fired s). unfold bind.
    rewrite callback_alert, IH, with_log_app. reflexivity.
Qed.

(** C7. When a property read of a round fails while the poll loop runs,
    that round is the loop's last: the error is logged, [_running]
    becomes false, the loop returns without another iteration however
    many rounds could follow, and restarting the loop body on that state
    does nothing.  The callbacks registered on the bus are untouched, and
    a signal delivered afterwards is still logged at CRITICAL by each. *)
Theorem poll_failure_stops_polling_only :
  forall (self : t) (a : answers) (rest : list answers) (msg : string),
    _running self = true ->
    failure a = Some msg ->
    let out := _monitor_loop (a :: rest) self in
    fst out = Return tt /\
    _running (snd out) = false /\
    iterations (a :: rest) self = 1%nat /\
    log (snd out)
    = log self ++ [(ERROR, Text ("Failed to read properties: " ++ msg))] /\
    (forall more, _monitor_loop more (snd out) = (Return tt, snd out)) /\
    subscriptions (snd out) = subscriptions self /\
    (forall sender obj ifc sig temp,
        log (snd (deliver [sender; obj; ifc; sig; VTuple [VFloat temp]]
                    (snd out)))
        = log (snd out)
          ++ map (fun _ => (CRITICAL, Alert (VFloat temp)))
               (subscriptions self)).
Proof.
  intros self a rest msg Hrun Hfail out.
  assert (Hout : out
                 = (Return tt,
                    stopped (with_log self
                      [(ERROR, Text ("Failed to read properties: " ++ msg))]))).
  { unfold out. simpl. rewrite Hrun. unfold bind.
    rewrite (poll_failure a msg self Hfail).
    now apply loop_not_running. }
  rewrite Hout. simpl fst. simpl snd.
  split; [reflexivity|]. split; [reflexivity|]. split.
  { simpl. rewrite Hrun, (poll_failure a msg self Hfail).
    now rewrite iterations_not_running. }
  split; [reflexivity|]. split.
  { intros more. now apply loop_not_running. }
  split; [reflexivity|].
  intros sender obj ifc sig temp. unfold deliver.
  rewrite dispatch_alert. reflexivity.
Qed.

Lemma poll_failure_stops_polling_only_witness :
  _running (mk (Some (Proxy BUS_NAME OBJECT_PATH)) true true
               [{| iface := SERVICE_INTERFACE;
                   signal := "TemperatureThresholdExceeded";
                   signal_fired := on_temp_threshold_exceeded |}] [])
  = true /\
  failure {| Temperature := Value 70.5; Voltage := Error "gone"%string;
             Version := Value "1.0.0-prototype"%string |} = Some "gone"%string /\
  iterations
    [ {| Temperature := Value 70.5; Voltage := Error "gone"%string;
         Version := Value "1.0.0-prototype"%string |};
      {| Temperature := Value 71; Voltage := Value 1.1;
         Version := Value "1.0.0-prototype"%string |} ]
    (mk (Some (Proxy BUS_NAME OBJECT_PATH)) true true
        [{| iface := SERVICE_INTERFACE;
            signal := "TemperatureThresholdExceeded";
            signal_fired := on_temp_threshold_exceeded |}] [])
  = 1%nat.
Proof.
  split; [reflexivity|]. split; [reflexivity|].
  apply (poll_failure_stops_polling_only
           (mk (Some (Proxy BUS_NAME OBJECT_PATH)) true true
               [{| iface := SERVICE_INTERFACE;
                   signal := "TemperatureThresholdExceeded";
                   signal_fired := on_temp_threshold_exceeded |}] [])
           {| Temperature := Value 70.5; Voltage := Error "gone"%string;
              Version := Value "1.0.0-prototype"%string |}
           [ {| Temperature := Value 71; Voltage := Value 1.1;
                Version := Value "1.0.0-prototype"%string |} ]
           "gone"%string eq_refl eq_refl).
Defined.

(** C9 as stated has [connect] fail with an exception when the service
    cannot be reached.  It does not: the exception of [bus.get] is caught
    inside [connect], which returns normally. *)
Lemma connect_raises_nothing_when_unreachable :
  ~ (exists e : exn,
        fst (connect (unreachable "name has no owner" (Return tt) (Return tt))
               __init__)
        = Raise e).
Proof. intros [e H]. discriminate H. Qed.

(** C9, amended. When the service cannot be reached, [connect] logs the
    cause at ERROR and returns [False] without raising; [run] then calls
    [sys.exit(1)], which no handler of [run] catches, the [finally] block
    logs the shutdown, and the process ends with exit status 1.  Nothing
    was subscribed and no polling was started. *)
Theorem unreachable_service_exits_with_status_1 :
  forall (msg : string) (sub run_loop : result unit),
    let b := unreachable msg sub run_loop in
    connect b __init__
    = (Return false,
       with_log __init__
         [(ERROR, Text ("Connection to service failed: " ++ msg))]) /\
    fst (run b __init__) = Raise (SystemExit 1) /\
    fst (main b) = Exit 1 /\
    log (snd (main b))
    = [(ERROR, Text ("Connection to service failed: " ++ msg));
       (INFO, Text "Client has been shut down.")] /\
    subscriptions (snd (main b)) = [] /\
    _running (snd (main b)) = false /\
    monitor_proxy (snd (main b)) = None.
Proof. intros msg sub run_loop b. repeat split. Qed.

(** The same client with the service present, for comparison: it
    connects, subscribes, and leaves with status 0 on Ctrl-C. *)
Example reachable_service_then_interrupt :
  let b := {| get := Return (Proxy BUS_NAME OBJECT_PATH);
              subscribe := Return tt;
              main_loop_run := Raise KeyboardInterrupt |} in
  fst (main b) = Exit 0 /\
  map fst (log (snd (main b))) = [INFO; INFO; INFO; INFO; INFO; INFO] /\
  List.length (subscriptions (snd (main b))) = 1%nat.
Proof. repeat split. Qed.

End ClientProperties.

(** ** The lock *)

Section ThreadProperties.
Import HardwareSimulator Threads.

Lemma set_reader_same (rs : nat -> reader_pc) (n : nat) (pc : reader_pc) :
  set_reader rs n pc n = pc.
Proof. unfold set_reader. now rewrite Nat.eqb_refl. Qed.

Lemma set_reader_other (rs : nat -> reader_pc) (n m : nat) (pc : reader_pc) :
  m <> n -> set_reader rs n pc m = rs m.
Proof.
  intros H. unfold set_reader. apply Nat.eqb_neq in H. now rewrite H.
Qed.

Lemma init_consistent : consistent init.
Proof.
  split; [intros n p []|]. simpl. repeat split. now left.
Qed.

Lemma step_updater_consistent (d : draws) (s : state) :
  consistent s -> consistent (step_updater d s).
Proof.
  intros Hs. pose proof Hs as [Hret Hlock]. unfold step_updater.
  destruct (updater s) eqn:Hpc.
  - destruct (lock s) as [[|k]|] eqn:Hl.
    + exact Hs.
    + exact Hs.
    + split; [exact Hret|]. simpl. destruct Hlock as (_ & Hidle & _).
      split; [discriminate|exact Hidle].
  - destruct (lock s) as [[|k]|] eqn:Hl.
    + split; [exact Hret|]. simpl.
      split; [discriminate|apply Hlock].
    + destruct Hlock as [Hu _]. congruence.
    + destruct Hlock as [Hu _]. congruence.
  - destruct (lock s) as [[|k]|] eqn:Hl.
    + split; [exact Hret|]. simpl.
      split; [discriminate|apply Hlock].
    + destruct Hlock as [Hu _]. congruence.
    + destruct Hlock as [Hu _]. congruence.
  - destruct (lock s) as [[|k]|] eqn:Hl.
    + split; [exact Hret|]. simpl.
      split; [discriminate|apply Hlock].
    + destruct Hlock as [Hu _]. congruence.
    + destruct Hlock as [Hu _]. congruence.
  - destruct (lock s) as [[|k]|] eqn:Hl.
    + split; simpl.
      * intros n p Hin. right. now apply (Hret n p).
      * split; [reflexivity|]. split; [apply Hlock|now left].
    + destruct Hlock as [Hu _]. congruence.
    + destruct Hlock as [Hu _]. congruence.
Qed.

Lemma step_reader_consistent (n : nat) (s : state) :
  consistent s -> consistent (step_reader n s).
Proof.
  intros Hs. pose proof Hs as [Hret Hlock]. unfold step_reader.
  destruct (readers s n) eqn:Hpc.
  - destruct (lock s) as [[|k]|] eqn:Hl.
    + exact Hs.
    + exact Hs.
    + split; [exact Hret|]. simpl. destruct Hlock as (Hu & Hidle & Hin).
      split; [exact Hu|]. split; [exact Hin|]. split.
      * intros m Hm. rewrite set_reader_other by assumption. apply Hidle.
      * now rewrite set_reader_same.
  - destruct (lock s) as [[|k]|] eqn:Hl.
    + destruct Hlock as [_ Hidle]. rewrite Hidle in Hpc. discriminate.
    + destruct Hlock as (Hu & Hin & Hothers & Hk).
      destruct (Nat.eq_dec n k) as [->|Hne];
        [|rewrite (Hothers n Hne) in Hpc; discriminate].
      split; [exact Hret|]. simpl.
      split; [exact Hu|]. split; [exact Hin|]. split.
      * intros m Hm. rewrite set_reader_other by assumption. now apply Hothers.
      * now rewrite set_reader_same.
    + destruct Hlock as (_ & Hidle & _). rewrite Hidle in Hpc. discriminate.
  - destruct (lock s) as [[|k]|] eqn:Hl.
    + destruct Hlock as [_ Hidle]. rewrite Hidle in Hpc. discriminate.
    + destruct Hlock as (Hu & Hin & Hothers & Hk).
      destruct (Nat.eq_dec n k) as [->|Hne];
        [|rewrite (Hothers n Hne) in Hpc; discriminate].
      rewrite Hpc in Hk.
      split; [exact Hret|]. simpl.
      split; [exact Hu|]. split; [exact Hin|]. split.
      * intros m Hm. rewrite set_reader_other by assumption. now apply Hothers.
      * rewrite set_reader_same. now rewrite Hk.
    + destruct Hlock as (_ & Hidle & _). rewrite Hidle in Hpc. discriminate.
  - destruct (lock s) as [[|k]|] eqn:Hl.
    + destruct Hlock as [_ Hidle]. rewrite Hidle in Hpc. discriminate.
    + destruct Hlock as (Hu & Hin & Hothers & Hk).
      destruct (Nat.eq_dec n k) as [->|Hne];
        [|rewrite (Hothers n Hne) in Hpc; discriminate].
      rewrite Hpc in Hk.
      split; simpl.
      * intros m p [Heq|Hold]; [|now apply (Hret m p)].
        injection Heq as _ <-. now rewrite Hk.
      * split; [exact Hu|]. split; [|exact Hin].
        intros m. destruct (Nat.eq_dec m k) as [->|Hne].
        -- now rewrite set_reader_same.
        -- rewrite set_reader_other by assumption. now apply Hothers.
    + destruct Hlock as (_ & Hidle & _). rewrite Hidle in Hpc. discriminate.
Qed.

Lemma step_consistent (s : state) (t : turn) :
  consistent s -> consistent (step s t).
Proof.
  destruct t; [apply step_updater_consistent | apply step_reader_consistent].
Qed.

Lemma fold_consistent (schedule : list turn) :
  forall s : state, consistent s -> consistent (fold_left step schedule s).
Proof.
  induction schedule as [|t schedule IH]; intros s Hs; [exact Hs|].
  simpl. apply IH. now apply step_consistent.
Qed.

(** X18. An update that no other thread interleaves with stores what
    [update] computes, and records it as the pair of that update. *)
Lemma uninterrupted_update (d : draws) (s : state) :
  lock s = None -> updater s = U_enter ->
  let s' := fold_left step (repeat (Simulate d) 5) s in
  (temperature s', voltage s')
  = get_sensor_data
      (update {| _temperature := temperature s; _voltage := voltage s;
                 _running := true |} d) /\
  ticks s' = (temperature s', voltage s') :: ticks s /\
  lock s' = None.
Proof.
  destruct s as [temp volt l pc rs ts ret]. simpl. intros -> ->.
  repeat split.
Qed.

(** C8. In every interleaving of the simulation thread and any number of
    callers of [get_sensor_data], each pair a caller gets back is the pair
    the object held at the end of one update (or when it was built):
    never a temperature of one update with the voltage of another, and
    never a value from the middle of an update. *)
Theorem get_sensor_data_never_torn :
  forall (schedule : list turn) (n : nat) (temp volt : float),
    In (n, (temp, volt)) (returned (run schedule)) ->
    In (temp, volt) (ticks (run schedule)).
Proof.
  intros schedule n temp volt Hin.
  destruct (fold_consistent schedule init init_consistent) as [Hret _].
  exact (Hret n (temp, volt) Hin).
Qed.

Lemma get_sensor_data_never_torn_witness :
  In (0%nat, (65.0, 1.1))
     (returned (run [Read 0; Read 0; Read 0; Read 0])) /\
  In (65.0, 1.1) (ticks (run [Read 0; Read 0; Read 0; Read 0])).
Proof.
  assert (H : In (0%nat, (65.0, 1.1))
                 (returned (run [Read 0; Read 0; Read 0; Read 0])))
    by (left; reflexivity).
  split; [exact H|].
  exact (get_sensor_data_never_torn _ _ _ _ H).
Defined.

(** A reader scheduled in the middle of an update waits: it returns
    nothing until the updater has left the block, and then the pair of
    the finished update. *)
Example reader_waits_for_the_update :
  let d := {| drift := 0.5; roll := 5; spike := 15; volt := 1.15 |} in
  let mid := run [Simulate d; Simulate d; Simulate d; Simulate d;
                  Read 7; Read 7; Read 7; Read 7] in
  let done := fold_left step
                [Simulate d; Read 7; Read 7; Read 7; Read 7] mid in
  (temperature mid, voltage mid) = (80.5, 1.15) /\
  ticks mid = [(65.0, 1.1)] /\
  returned mid = [] /\
  returned done = [(7%nat, (80.5, 1.15))] /\
  ticks done = [(80.5, 1.15); (65.0, 1.1)].
Proof. repeat split. Qed.

End ThreadProperties.

(** * Further properties *)

(** ** The monitor loop as a whole *)

Section MonitorRuns.
Import HealthMonitorService.

Lemma with_last_reading_same (self : t) :
  with_last_reading self (_last_temp_reading self) = self.
Proof. destruct self; reflexivity. Qed.

Lemma last_cons {A : Type} (a d : A) (l : list A) :
  last (a :: l) d = last l a.
Proof.
  revert a d. induction l as [|b l IH]; intros a d; [reflexivity|].
  change (last (a :: b :: l) d) with (last (b :: l) d).
  now rewrite !IH.
Qed.

Lemma monitor_loop_edges :
  forall (self : t) (sensor : list (float * float)),
    _shutdown_requested self = false ->
    _monitor_loop self sensor
    = (with_last_reading self
         (last (map fst sensor) (_last_temp_reading self)),
       rising_edges (_last_temp_reading self) (map fst sensor)).
Proof.
  intros self sensor. revert self.
  induction sensor as [|[temp volt] sensor IH]; intros self Hrun.
  - simpl. now rewrite with_last_reading_same.
  - rewrite loop_cons by assumption.
    rewrite (IH (fst (tick self (temp, volt)))) by (now rewrite tick_flag).
    simpl map. rewrite last_cons. reflexivity.
Qed.

(** X1. A run of the monitor loop is the edge detector on the temperatures
    read, started from the stored reading; of the object it changes
    nothing but the stored reading, which ends as the last temperature
    read. *)
Theorem monitor_loop_is_edge_detector :
  forall (self : t) (sensor : list (float * float)),
    _shutdown_requested self = false ->
    _monitor_loop self sensor
    = (with_last_reading self
         (last (map fst sensor) (_last_temp_reading self)),
       rising_edges (_last_temp_reading self) (map fst sensor)).
Proof.
  intros self sensor Hrun. now apply monitor_loop_edges.
Qed.

Lemma monitor_loop_is_edge_detector_witness :
  _shutdown_requested __init__ = false /\
  _monitor_loop __init__ [(84, 1.1); (86, 1.12); (88, 1.07)]
  = (with_last_reading __init__ 88, [None; Some 86; None]).
Proof.
  split; [reflexivity|].
  exact (monitor_loop_is_edge_detector
           __init__ [(84, 1.1); (86, 1.12); (88, 1.07)] eq_refl).
Defined.

Lemma rising_edges_count (temps : list float) :
  forall last : float,
    ((last <=? 85.0) = false ->
     (2 * count_events (rising_edges last temps) <= List.length temps)%nat) /\
    (2 * count_events (rising_edges last temps) <= List.length temps + 1)%nat.
Proof.
  induction temps as [|temp temps IH]; intros last.
  - simpl. unfold count_events. simpl. split; intros; lia.
  - destruct (IH temp) as [IHabove IHany].
    simpl rising_edges. unfold count_events in *. simpl List.length.
    destruct (85.0 <? temp) eqn:Htemp; simpl andb.
    + pose proof (IHabove (ltb_leb_false _ _ Htemp)) as Hnext.
      destruct (last <=? 85.0) eqn:Hlast; simpl filter; simpl List.length;
        split; intros; try discriminate; lia.
    + simpl filter. split; intros; lia.
Qed.

(** X2. The monitor never emits at two consecutive ticks, so a run of [n]
    ticks emits at most [(n + 1) / 2] signals, whatever it reads and
    whatever reading it started from. *)
Theorem events_at_most_every_other_tick :
  forall (self : t) (sensor : list (float * float)),
    (2 * count_events (snd (_monitor_loop self sensor))
     <= List.length sensor + 1)%nat /\
    (forall i temp temp',
        nth_error (snd (_monitor_loop self sensor)) i = Some (Some temp) ->
        nth_error (snd (_monitor_loop self sensor)) (S i) <> Some (Some temp')).
Proof.
  intros self sensor.
  destruct (_shutdown_requested self) eqn:Hflag.
  - rewrite loop_stopped by assumption. simpl. split; [unfold count_events; simpl; lia|].
    intros i temp temp' H. destruct i; discriminate H.
  - rewrite monitor_loop_edges by assumption. simpl snd. split.
    + pose proof (rising_edges_count (map fst sensor) (_last_temp_reading self))
        as [_ H].
      now rewrite length_map in H.
    + generalize (_last_temp_reading self) as last.
      induction (map fst sensor) as [|t ts IH]; intros last i temp temp' H.
      * destruct i; discriminate H.
      * destruct i as [|i].
        -- simpl in H. destruct ts as [|t' ts]; [discriminate|].
           simpl. destruct (85.0 <? t) eqn:Ht; simpl in H; [|discriminate].
           rewrite (ltb_leb_false _ _ Ht). rewrite andb_false_r. discriminate.
        -- simpl in H. simpl. now apply (IH t i temp temp').
Qed.

Lemma rising_edges_payload (temps : list float) :
  forall (last temp : float),
    In (Some temp) (rising_edges last temps) ->
    (85.0 <? temp) = true /\ In temp temps.
Proof.
  induction temps as [|t ts IH]; intros last temp Hin; [destruct Hin|].
  simpl in Hin. destruct Hin as [Hhere|Hlater].
  - destruct (85.0 <? t) eqn:Ht; simpl in Hhere;
      [|discriminate].
    destruct (last <=? 85.0); [|discriminate].
    injection Hhere as <-. split; [exact Ht|now left].
  - destruct (IH t temp Hlater) as [Habove Hin]. split; [exact Habove|now right].
Qed.

Lemma event_payload_is_a_reading_above_threshold_core :
  forall (self : t) (sensor : list (float * float)) (temp : float),
    In (Some temp) (snd (_monitor_loop self sensor)) ->
    (85.0 <? temp) = true /\ In temp (map fst sensor).
Proof.
  intros self sensor temp Hin.
  destruct (_shutdown_requested self) eqn:Hflag.
  - rewrite loop_stopped in Hin by assumption. destruct Hin.
  - rewrite monitor_loop_edges in Hin by assumption.
    exact (rising_edges_payload _ _ _ Hin).
Qed.

(** X3. Every argument the signal is emitted with is a temperature the
    monitor read, and it is above 85.0. *)
Theorem event_payload_is_a_reading_above_threshold :
  forall (self : t) (sensor : list (float * float)) (temp : float),
    In (Some temp) (snd (_monitor_loop self sensor)) ->
    PyFloat.gtb temp TEMPERATURE_THRESHOLD = true /\
    In temp (map fst sensor).
Proof.
  intros self sensor temp Hin.
  exact (event_payload_is_a_reading_above_threshold_core self sensor temp Hin).
Qed.

Lemma event_payload_is_a_reading_above_threshold_witness :
  In (Some 86) (snd (_monitor_loop __init__ [(84, 1.1); (86, 1.12)])) /\
  PyFloat.gtb 86 TEMPERATURE_THRESHOLD = true.
Proof.
  assert (H : In (Some 86)
                 (snd (_monitor_loop __init__ [(84, 1.1); (86, 1.12)])))
    by (right; left; reflexivity).
  split; [exact H|].
  exact (proj1 (event_payload_is_a_reading_above_threshold _ _ _ H)).
Defined.

(** X4. Splitting what the monitor reads into two runs, the second resumed
    from the object the first left, emits what one run emits. *)
Theorem monitor_loop_resumes :
  forall (self : t) (first second : list (float * float)),
    _monitor_loop self (first ++ second)
    = (fst (_monitor_loop (fst (_monitor_loop self first)) second),
       snd (_monitor_loop self first)
       ++ snd (_monitor_loop (fst (_monitor_loop self first)) second)).
Proof.
  intros self first. revert self.
  induction first as [|data first IH]; intros self second.
  - simpl. destruct (_monitor_loop self second); reflexivity.
  - destruct (_shutdown_requested self) eqn:Hflag.
    + rewrite (loop_stopped self ((data :: first) ++ second) Hflag).
      rewrite (loop_stopped self (data :: first) Hflag). simpl fst.
      now rewrite (loop_stopped self second Hflag).
    + rewrite <- app_comm_cons.
      rewrite (loop_cons self data (first ++ second) Hflag).
      rewrite (loop_cons self data first Hflag). rewrite IH. reflexivity.
Qed.

(** X5. Once [shutdown] was called the loop emits nothing and leaves the
    object as it is, whatever the sensor holds; [shutdown] keeps the
    stored reading and the version. *)
Theorem shutdown_silences_the_monitor :
  forall (self : t) (sensor : list (float * float)),
    _monitor_loop (shutdown self) sensor = (shutdown self, []) /\
    _last_temp_reading (shutdown self) = _last_temp_reading self /\
    Version (shutdown self) = Version self /\
    shutdown (shutdown self) = shutdown self.
Proof.
  intros self sensor. split; [now apply loop_stopped|]. repeat split.
Qed.

End MonitorRuns.

(** ** The simulator's clamp and what the monitor samples *)

Section SimulatorRuns.
Import HardwareSimulator.

Lemma SFcompare_Eq_finite (x : spec_float) (s : bool) (m : positive) (e : Z) :
  SFcompare x (S754_finite s m e) = Some Eq -> x = S754_finite s m e.
Proof.
  destruct x as [sx|sx| |sx mx ex]; simpl.
  - destruct s; discriminate.
  - destruct sx; discriminate.
  - discriminate.
  - destruct sx, s; try discriminate;
      destruct (ex ?= e)%Z eqn:He; try discriminate;
      apply Z.compare_eq in He; subst ex; intros H;
      injection H as H.
    + apply (f_equal CompOpp) in H. rewrite CompOpp_involutive in H.
      simpl in H. apply (Pos.compare_eq mx m) in H. now subst.
    + apply (Pos.compare_eq mx m) in H. now subst.
Qed.

(** At or below a finite non-zero float without being below it is being
    that float. *)
Lemma leb_not_ltb (x c : float) (s : bool) (m : positive) (e : Z) :
  Prim2SF c = S754_finite s m e ->
  (x <=? c) = true -> (x <? c) = false -> x = c.
Proof.
  intros Hc. rewrite leb_spec, ltb_spec. unfold SFleb, SFltb.
  destruct (SFcompare (Prim2SF x) (Prim2SF c)) as [[ | | ]|] eqn:Hcmp;
    try discriminate.
  intros _ _. apply Prim2SF_inj. rewrite Hc in *.
  now apply SFcompare_Eq_finite.
Qed.

Lemma geb_not_gtb (x c : float) (s : bool) (m : positive) (e : Z) :
  Prim2SF c = S754_finite s m e ->
  (c <=? x) = true -> (c <? x) = false -> x = c.
Proof.
  intros Hc. rewrite leb_spec, ltb_spec. unfold SFleb, SFltb.
  destruct (SFcompare (Prim2SF c) (Prim2SF x)) as [[ | | ]|] eqn:Hcmp;
    try discriminate.
  intros _ _. apply Prim2SF_inj. rewrite Hc in *.
  apply SFcompare_Eq_finite.
  rewrite (SFcompare_swap (S754_finite s m e) (Prim2SF x)), Hcmp.
  reflexivity.
Qed.

Lemma ltb_asym (x y : float) : (x <? y) = true -> (y <? x) = false.
Proof.
  rewrite !ltb_spec. unfold SFltb.
  rewrite (SFcompare_swap (Prim2SF x) (Prim2SF y)).
  destruct (SFcompare (Prim2SF x) (Prim2SF y)) as [[ | | ]|]; simpl;
    congruence.
Qed.

Lemma SFltb_finite_larger_exponent (x : spec_float) (m1 m2 : positive)
      (e1 e2 : Z) :
  (e1 < e2)%Z ->
  SFltb x (S754_finite false m1 e1) = true ->
  SFltb x (S754_finite false m2 e2) = true.
Proof.
  intros He. unfold SFltb.
  destruct x as [sx|sx| |sx mx ex]; cbn [SFcompare]; try (intros H; exact H).
  destruct sx; [reflexivity|].
  destruct (Z.compare_spec ex e1) as [Hx|Hx|Hx]; try discriminate;
    intros _; destruct (Z.compare_spec ex e2); try lia; reflexivity.
Qed.

(** Only a NaN differs from itself, and a NaN is below nothing. *)
Lemma not_self_equal_not_below (x y : spec_float) :
  SFeqb x x = false -> SFltb x y = false.
Proof.
  unfold SFeqb, SFltb.
  destruct x as [sx|sx| |sx mx ex]; cbn [SFcompare].
  - discriminate.
  - destruct sx; discriminate.
  - reflexivity.
  - destruct sx; rewrite Z.compare_refl;
      change (PosDef.Pos.compare_cont Eq mx mx) with (Pos.compare mx mx);
      rewrite Pos.compare_refl; discriminate.
Qed.

Lemma below_50_below_95 (x : float) : (x <? 50.0) = true -> (x <? 95.0) = true.
Proof.
  rewrite !ltb_spec.
  change (Prim2SF 50.0) with (S754_finite false 7036874417766400 (-47)).
  change (Prim2SF 95.0) with (S754_finite false 6685030696878080 (-46)).
  apply SFltb_finite_larger_exponent. lia.
Qed.

(** X6. What an update stores as temperature is the drifted temperature
    saturated to [50.0, 95.0]: the drifted value itself when it is within
    the range, 95.0 when it is above 95.0 or not a number, 50.0 when it is
    below 50.0. *)
Theorem update_saturates_temperature :
  forall (self : t) (d : draws),
    let drifted :=
      _temperature self
      + (if (roll d =? 5)%Z then drift d + spike d else drift d) in
    let stored := _temperature (update self d) in
    (PyFloat.within 50.0 95.0 drifted = true -> stored = drifted) /\
    (PyFloat.gtb drifted 95.0 = true -> stored = 95.0) /\
    ((drifted <? 50.0) = true -> stored = 50.0) /\
    ((drifted =? drifted) = false -> stored = 95.0).
Proof.
  intros self d drifted stored.
  assert (Hstored : stored = PyFloat.max 50.0 (PyFloat.min 95.0 drifted))
    by reflexivity.
  rewrite Hstored. clear Hstored stored.
  generalize drifted as x. clear drifted. intros x.
  unfold PyFloat.within, PyFloat.max, PyFloat.min, PyFloat.gtb.
  repeat split.
  - intros H. apply andb_true_iff in H as [Hlow Hhigh].
    destruct (x <? 95.0) eqn:Hlt.
    + destruct (50.0 <? x) eqn:Hgt; [reflexivity|].
      symmetry.
      now apply (geb_not_gtb x 50.0 false 7036874417766400 (-47)).
    + symmetry.
      now apply (leb_not_ltb x 95.0 false 6685030696878080 (-46)).
  - intros H. now rewrite (ltb_asym _ _ H).
  - intros H. rewrite (below_50_below_95 x H).
    now rewrite (ltb_asym _ _ H).
  - intros H.
    assert (Hlt : (x <? 95.0) = false).
    { revert H. rewrite eqb_spec, ltb_spec. apply not_self_equal_not_below. }
    now rewrite Hlt.
Qed.

Lemma update_saturates_temperature_witness :
  PyFloat.within 50.0 95.0
    (_temperature __init__
     + (if (roll {| drift := 0.25; roll := 3; spike := 7; volt := 1.1 |} =? 5)%Z
        then 0.25 + 7 else 0.25)) = true /\
  _temperature
    (update __init__ {| drift := 0.25; roll := 3; spike := 7; volt := 1.1 |})
  = 65.25.
Proof.
  split; [reflexivity|].
  exact (proj1 (update_saturates_temperature __init__
                  {| drift := 0.25; roll := 3; spike := 7; volt := 1.1 |})
               eq_refl).
Defined.

Lemma loop_temperature_in_range (ds : list draws) :
  forall self : t,
    Forall (fun s => PyFloat.within 50.0 95.0 (_temperature s) = true)
           (_simulation_loop self ds).
Proof.
  induction ds as [|d ds IH]; intros self; simpl; [constructor|].
  destruct (_running self); constructor; [apply clamp_within | apply IH].
Qed.

(** X7. Whatever the monitor reads from the simulator, at whatever pace
    (skipping snapshots or reading one several times), every argument it
    emits the signal with is above 85.0 and at most 95.0, whatever was
    drawn and whatever the monitor had stored. *)
Theorem sampled_events_are_between_threshold_and_bound :
  forall (ds : list draws) (monitor : HealthMonitorService.t)
         (sensor : list (float * float)) (temp : float),
    incl sensor (snapshots ds) ->
    In (Some temp)
       (snd (HealthMonitorService._monitor_loop monitor sensor)) ->
    (85.0 <? temp) = true /\ (temp <=? 95.0) = true.
Proof.
  intros ds monitor sensor temp Hincl Hin.
  destruct (event_payload_is_a_reading_above_threshold_core
              monitor sensor temp Hin) as [Habove Hread].
  split; [exact Habove|].
  apply in_map_iff in Hread as [[temp' volt] [Heq Hdata]].
  simpl in Heq. subst temp'.
  apply Hincl in Hdata. destruct Hdata as [Hinit|Hlater].
  - injection Hinit as <- _. reflexivity.
  - apply in_map_iff in Hlater as [s [Heq Hs]].
    injection Heq as <- _.
    pose proof (loop_temperature_in_range ds (start __init__)) as Hall.
    rewrite Forall_forall in Hall. specialize (Hall s Hs).
    unfold PyFloat.within in Hall. now apply andb_true_iff in Hall as [_ H].
Qed.

Lemma sampled_events_are_between_threshold_and_bound_witness :
  incl [(65.0, 1.1); (95, 1.05); (95, 1.05)]
       (snapshots
          [ {| drift := 0.5; roll := 5; spike := 15; volt := 1.15 |};
            {| drift := 0.5; roll := 5; spike := 15; volt := 1.05 |} ]) /\
  In (Some 95)
     (snd (HealthMonitorService._monitor_loop HealthMonitorService.__init__
             [(65.0, 1.1); (95, 1.05); (95, 1.05)])) /\
  (85.0 <? 95) = true.
Proof.
  assert (Hincl : incl [(65.0, 1.1); (95, 1.05); (95, 1.05)]
       (snapshots
          [ {| drift := 0.5; roll := 5; spike := 15; volt := 1.15 |};
            {| drift := 0.5; roll := 5; spike := 15; volt := 1.05 |} ])).
  { intros data [H|[H|[H|[]]]]; subst data.
    - left; reflexivity.
    - right; right; left; reflexivity.
    - right; right; left; reflexivity. }
  assert (H : In (Some 95)
     (snd (HealthMonitorService._monitor_loop HealthMonitorService.__init__
             [(65.0, 1.1); (95, 1.05); (95, 1.05)])))
    by (right; left; reflexivity).
  split; [exact Hincl|]. split; [exact H|].
  exact (proj1 (sampled_events_are_between_threshold_and_bound _ _ _ _ Hincl H)).
Defined.

End SimulatorRuns.

(** ** The client's callback, poll loop and entry point *)

Section ClientRuns.
Import Py HealthMonitorClient.

Lemma callback_logs_once (args : list value) (self : t) :
  exists (lvl : level) (msg : message),
    _on_temp_threshold_exceeded args self
    = (Return tt, with_log self [(lvl, msg)]) /\
    (lvl = CRITICAL ->
     exists x rest,
       nth_error args 4 = Some (VTuple (x :: rest)) /\
       msg = Alert x /\ formats_as_float x = true).
Proof.
  unfold _on_temp_threshold_exceeded, try_except_Exception.
  destruct (nth_error args 4) as [a4|] eqn:Hnth.
  - destruct a4 as [ |s|z|f|[|x rest]]; simpl;
      try (eexists; eexists; split; [reflexivity|discriminate]).
    destruct x as [ |s|z|f|items]; simpl;
      try (eexists; eexists; split; [reflexivity|discriminate]);
      (eexists; eexists; split; [reflexivity|]; intros _;
       eexists; eexists; repeat split).
  - simpl. eexists; eexists; split; [reflexivity|discriminate].
Qed.


Lemma dispatch_logs_once_each (args : list value) (subs : list subscription) :
  forall self : t,
    exists records : list (level * message),
      dispatch subs args self = (Return tt, with_log self records) /\
      List.length records = List.length subs.
Proof.
  induction subs as [|s subs IH]; intros self.
  - exists []. simpl. now rewrite with_log_nil.
  - simpl. destruct (signal_fired s). unfold bind.
    destruct (callback_logs_once args self) as (lvl & msg & Hcall & _).
    rewrite Hcall.
    destruct (IH (with_log self [(lvl, msg)])) as (records & Hrest & Hlen).
    exists ((lvl, msg) :: records). rewrite Hrest, with_log_app.
    split; [reflexivity|]. simpl. now rewrite Hlen.
Qed.

(** Delivering a signal never raises: every registered callback logs
    one record, in order, and the proxy, the [_running] flag and the
    registrations stay as they were, whatever the arguments. *)
Theorem deliver_logs_once_per_subscription :
  forall (args : list value) (self : t),
    exists records : list (level * message),
      deliver args self = (Return tt, with_log self records) /\
      List.length records = List.length (subscriptions self).
Proof. intros args self. apply dispatch_logs_once_each. Qed.





(** X10. However the calls of the bus end, [run] hands no exception other
    than an exit request to the interpreter, so the client never dies with
    a traceback; and on every path the [finally] block has cleared
    [_running] and the last record logged is the shutdown message. *)
Theorem client_always_shuts_down :
  forall b : bus,
    (exists status : Z, fst (main b) = Exit status) /\
    _running (snd (main b)) = false /\
    last (log (snd (main b))) (INFO, Text "")
    = (INFO, Text "Client has been shut down.").
Proof.
  intros [[p|[m1| |c1]] [u2|[m2| |c2]] [u3|[m3| |c3]]];
    (split; [eexists; reflexivity|split; reflexivity]).
Qed.

(** X11. When no call of the bus asks for an exit, the exit status of the
    client is 1 if [bus.get] raised an exception of class [Exception] and 0
    in every other case: a failed subscription, an exception out of the
    main loop and Ctrl-C all end with status 0. *)
Theorem client_exit_status :
  forall b : bus,
    exits (get b) = false ->
    exits (subscribe b) = false ->
    exits (main_loop_run b) = false ->
    fst (main b) = Exit (if fails (get b) then 1 else 0).
Proof.
  intros [[p|[m1| |c1]] [u2|[m2| |c2]] [u3|[m3| |c3]]]; simpl;
    intros H1 H2 H3; try discriminate; reflexivity.
Qed.

Lemma client_exit_status_witness :
  exits (get {| get := Return (Proxy BUS_NAME OBJECT_PATH);
                subscribe := Raise (Exception "no match rule");
                main_loop_run := Raise (Exception "loop died") |}) = false /\
  fst (main {| get := Return (Proxy BUS_NAME OBJECT_PATH);
               subscribe := Raise (Exception "no match rule");
               main_loop_run := Raise (Exception "loop died") |}) = Exit 0.
Proof.
  split; [reflexivity|].
  exact (client_exit_status
           {| get := Return (Proxy BUS_NAME OBJECT_PATH);
              subscribe := Raise (Exception "no match rule");
              main_loop_run := Raise (Exception "loop died") |}
           eq_refl eq_refl eq_refl).
Defined.

(** X12. A subscription that fails is not fatal: the error is logged, the
    client goes on to start polling and to enter the main loop, but no
    callback is registered, so a signal delivered to this client is logged
    by nobody. *)
Theorem failed_subscription_is_not_fatal :
  forall (p : proxy) (msg : string) (run_loop : result unit) (args : list value),
    let b := {| get := Return p;
                subscribe := Raise (Exception msg);
                main_loop_run := run_loop |} in
    let self := snd (run b __init__) in
    firstn 4 (log self)
    = [(INFO, Text "Successfully connected to Health Monitor Service.");
       (ERROR, Text ("Failed to subscribe to signals: " ++ msg));
       (INFO, Text "Starting Health Monitor Client demo.");
       (INFO, Text "Client is now monitoring hardware health. Press Ctrl+C to stop.")] /\
    loop self = true /\
    monitor_proxy self = Some p /\
    subscriptions self = [] /\
    deliver args self = (Return tt, self).
Proof.
  intros p msg [u|[m| |c]] args; repeat split.
Qed.


End ClientRuns.

(** ** The lock: exclusion, progress and agreement with the sequential loop *)

Section ThreadRuns.
Import HardwareSimulator Threads.

(** X14. In every interleaving the lock excludes: while the updater is
    inside its block no reader is inside one, and two readers are never
    inside at once. *)
Theorem lock_excludes :
  forall schedule : list turn,
    let s := run schedule in
    (updater s <> U_enter -> forall n, readers s n = R_enter) /\
    (forall n m,
        readers s n <> R_enter -> readers s m <> R_enter -> n = m) /\
    (lock s = None <->
     updater s = U_enter /\ forall n, readers s n = R_enter).
Proof.
  intros schedule s.
  destruct (fold_consistent schedule init init_consistent) as [_ Hlock].
  fold (run schedule) in Hlock. fold s in Hlock.
  destruct (lock s) as [[|k]|].
  - destruct Hlock as [Hu Hidle]. repeat split; try discriminate.
    + intros _. exact Hidle.
    + intros n m Hn. now rewrite Hidle in Hn.
    + intros [H _]. contradiction.
  - destruct Hlock as (Hu & _ & Hothers & Hk). repeat split; try discriminate.
    + intros H. contradiction.
    + intros n m Hn Hm.
      destruct (Nat.eq_dec n k) as [->|Hne];
        [|now rewrite (Hothers n Hne) in Hn].
      destruct (Nat.eq_dec m k) as [->|Hne];
        [reflexivity|now rewrite (Hothers m Hne) in Hm].
    + intros [_ Hidle]. rewrite Hidle in Hk. destruct Hk.
  - destruct Hlock as (Hu & Hidle & _). repeat split; try assumption.
    + intros _. exact Hidle.
    + intros n m Hn. now rewrite Hidle in Hn.
Qed.

Lemma lock_excludes_witness :
  updater (run [Simulate {| drift := 0.5; roll := 5; spike := 15; volt := 1.15 |};
                Read 3]) <> U_enter /\
  readers (run [Simulate {| drift := 0.5; roll := 5; spike := 15; volt := 1.15 |};
                Read 3]) 3 = R_enter.
Proof.
  assert (H : updater (run [Simulate {| drift := 0.5; roll := 5; spike := 15;
                                        volt := 1.15 |}; Read 3]) <> U_enter)
    by discriminate.
  split; [exact H|].
  exact (proj1 (lock_excludes _) H 3%nat).
Defined.

Lemma updated_running (ds : list draws) : _running (updated ds) = true.
Proof.
  unfold updated. generalize (start_running __init__).
  generalize (start __init__). induction ds as [|d ds IH]; intros s Hs;
    [exact Hs|]. simpl. now apply IH.
Qed.

Lemma simulation_loop_snoc (ds : list draws) (d : draws) :
  forall self : t,
    _running self = true ->
    _simulation_loop self (ds ++ [d])
    = _simulation_loop self ds ++ [update (fold_left update ds self) d].
Proof.
  induction ds as [|d' ds IH]; intros self Hrun; simpl; rewrite Hrun;
    [reflexivity|].
  now rewrite (IH (update self d')).
Qed.

Lemma init_sequential (P : draws -> Prop) : sequential P init.
Proof. exists []. repeat split. constructor. Qed.

Lemma step_updater_sequential (P : draws -> Prop) (d : draws) (s : state) :
  P d -> sequential P s -> sequential P (step_updater d s).
Proof.
  intros Hd (ds & HP & Hticks & Hhd & Hvolt & Hpc). unfold step_updater.
  destruct (updater s) as [ |d'|d'|d'| ] eqn:Hu.
  - destruct (lock s).
    + exists ds. rewrite Hu. repeat split; assumption.
    + exists ds. simpl. repeat split; assumption.
  - destruct Hpc as [Hd' Htemp].
    exists ds. simpl. repeat split; try assumption. now rewrite Htemp.
  - destruct Hpc as [Hd' Htemp].
    exists ds. simpl. repeat split; try assumption. now rewrite Htemp.
  - destruct Hpc as [Hd' Htemp].
    exists ds. simpl. repeat split; try assumption.
    exists d'. split; [assumption|]. now rewrite Htemp.
  - destruct Hpc as (d' & Hd' & Hpair).
    exists (ds ++ [d']). simpl.
    assert (Hnew : updated (ds ++ [d']) = update (updated ds) d').
    { unfold updated. now rewrite fold_left_app. }
    assert (Htemp : temperature s = _temperature (update (updated ds) d'))
      by exact (f_equal fst Hpair).
    assert (Hvolt' : voltage s = _voltage (update (updated ds) d'))
      by exact (f_equal snd Hpair).
    rewrite Hnew. repeat split; try assumption.
    + apply Forall_app. split; [assumption|now constructor].
    + rewrite Hticks.
      rewrite simulation_loop_snoc by apply start_running.
      rewrite map_app, Hpair. reflexivity.
Qed.

Lemma step_reader_sequential (P : draws -> Prop) (n : nat) (s : state) :
  sequential P s -> sequential P (step_reader n s).
Proof.
  intros H. unfold step_reader.
  destruct (readers s n); [destruct (lock s)|..]; exact H.
Qed.

Lemma fold_sequential (P : draws -> Prop) (schedule : list turn) :
  forall s : state,
    (forall d, In (Simulate d) schedule -> P d) ->
    sequential P s -> sequential P (fold_left step schedule s).
Proof.
  induction schedule as [|t schedule IH]; intros s HP Hs; [exact Hs|].
  simpl. apply IH; [intros d Hd; apply HP; now right|].
  destruct t as [d|n]; simpl.
  - apply step_updater_sequential; [apply HP; now left|exact Hs].
  - now apply step_reader_sequential.
Qed.

(** X15. Readers never disturb an update: in every interleaving, the pairs
    the object holds at the ends of the updates, in order, are the states
    the simulation loop alone goes through on the draws of the finished
    updates, and those draws are among the ones the schedule offered. *)
Theorem ticks_are_sequential_updates :
  forall schedule : list turn,
    exists ds : list draws,
      Forall (fun d => In (Simulate d) schedule) ds /\
      rev (ticks (run schedule))
      = get_sensor_data __init__
        :: map get_sensor_data (_simulation_loop (start __init__) ds).
Proof.
  intros schedule.
  destruct (fold_sequential (fun d => In (Simulate d) schedule) schedule init
              (fun d H => H) (init_sequential _))
    as (ds & HP & Hticks & _).
  exists ds. split; assumption.
Qed.

(** X16. In every interleaving whose voltage draws keep the contract of
    [uniform(1.05, 1.15)], every pair [get_sensor_data] returns to any
    caller has its temperature within [50.0, 95.0] and its voltage within
    [1.05, 1.15]. *)
Theorem returned_pairs_are_in_range :
  forall (schedule : list turn) (n : nat) (temp volt : float),
    (forall d, In (Simulate d) schedule -> uniform_voltage_contract d) ->
    In (n, (temp, volt)) (returned (run schedule)) ->
    PyFloat.within 50.0 95.0 temp = true /\
    PyFloat.within 1.05 1.15 volt = true.
Proof.
  intros schedule n temp volt Hdraws Hin.
  destruct (fold_consistent schedule init init_consistent) as [Hret _].
  apply (Hret n (temp, volt)) in Hin.
  destruct (fold_sequential uniform_voltage_contract schedule init
              Hdraws (init_sequential _))
    as (ds & HP & Hticks & _).
  apply in_rev in Hin. rewrite Hticks in Hin.
  destruct Hin as [Hinit|Hlater].
  - injection Hinit as <- <-. split; reflexivity.
  - apply in_map_iff in Hlater as (sim & Heq & Hsim).
    injection Heq as <- <-.
    destruct (loop_in_range ds (start __init__) (start_running __init__) HP)
      as [Hall _].
    rewrite Forall_forall in Hall. exact (Hall sim Hsim).
Qed.

Lemma returned_pairs_are_in_range_witness :
  (forall d,
      In (Simulate d)
         (repeat (Simulate {| drift := 0.5; roll := 5; spike := 15;
                              volt := 1.15 |}) 5
          ++ repeat (Read 2) 4) ->
      uniform_voltage_contract d) /\
  In (2%nat, (80.5, 1.15))
     (returned (run (repeat (Simulate {| drift := 0.5; roll := 5; spike := 15;
                                         volt := 1.15 |}) 5
                     ++ repeat (Read 2) 4))) /\
  PyFloat.within 50.0 95.0 80.5 = true.
Proof.
  assert (Hd : forall d,
      In (Simulate d)
         (repeat (Simulate {| drift := 0.5; roll := 5; spike := 15;
                              volt := 1.15 |}) 5
          ++ repeat (Read 2) 4) ->
      uniform_voltage_contract d).
  { intros d Hin. simpl in Hin.
    repeat (destruct Hin as [Hin|Hin];
            [try discriminate; injection Hin as <-; reflexivity|]).
    destruct Hin. }
  assert (Hin : In (2%nat, (80.5, 1.15))
     (returned (run (repeat (Simulate {| drift := 0.5; roll := 5; spike := 15;
                                         volt := 1.15 |}) 5
                     ++ repeat (Read 2) 4))))
    by (left; reflexivity).
  split; [exact Hd|]. split; [exact Hin|].
  exact (proj1 (returned_pairs_are_in_range _ _ _ _ Hd Hin)).
Defined.


(** A reader that finds the lock free returns in four steps the pair the
    object holds. *)
Lemma reader_returns_when_free (n : nat) (s : state) :
  lock s = None ->
  readers s n = R_enter ->
  returned (fold_left step (repeat (Read n) 4) s)
  = (n, (temperature s, voltage s)) :: returned s.
Proof.
  intros Hl Hpc. simpl. unfold step_reader at 4. rewrite Hpc, Hl.
  unfold step_reader at 3. cbn [readers]. rewrite set_reader_same.
  unfold step_reader at 2. cbn [readers]. rewrite set_reader_same.
  unfold step_reader at 1. cbn [readers]. rewrite set_reader_same.
  reflexivity.
Qed.

(** The updater inside its block leaves it in at most four steps of its
    own, without touching readers or results. *)
Lemma updater_leaves (s : state) :
  updater s <> U_enter ->
  exists k : nat,
    (k <= 4)%nat /\
    forall d,
      let s' := fold_left step (repeat (Simulate d) k) s in
      lock s' = None /\ readers s' = readers s /\ returned s' = returned s.
Proof.
  intros Hu. destruct s as [temp volt l pc rs ts ret]. simpl in Hu.
  destruct pc as [ |d'|d'|d'| ]; [contradiction| | | | ].
  - exists 4%nat. split; [lia|]. intros d. repeat split.
  - exists 3%nat. split; [lia|]. intros d. repeat split.
  - exists 2%nat. split; [lia|]. intros d. repeat split.
  - exists 1%nat. split; [lia|]. intros d. repeat split.
Qed.

Lemma reader_step_temperature (k : nat) (s : state) :
  readers s k = R_temperature ->
  readers (step_reader k s) k = R_voltage (temperature s) /\
  voltage (step_reader k s) = voltage s /\
  returned (step_reader k s) = returned s /\
  (forall m, m <> k -> readers (step_reader k s) m = readers s m).
Proof.
  intros Hk. unfold step_reader. rewrite Hk. cbn. repeat split.
  - apply set_reader_same.
  - intros m Hm. now apply set_reader_other.
Qed.

Lemma reader_step_voltage (k : nat) (s : state) (temp : float) :
  readers s k = R_voltage temp ->
  readers (step_reader k s) k = R_leave temp (voltage s) /\
  returned (step_reader k s) = returned s /\
  (forall m, m <> k -> readers (step_reader k s) m = readers s m).
Proof.
  intros Hk. unfold step_reader. rewrite Hk. cbn. repeat split.
  - apply set_reader_same.
  - intros m Hm. now apply set_reader_other.
Qed.

Lemma reader_step_leave (k : nat) (s : state) (temp volt : float) :
  readers s k = R_leave temp volt ->
  lock (step_reader k s) = None /\
  returned (step_reader k s) = (k, (temp, volt)) :: returned s /\
  readers (step_reader k s) k = R_enter /\
  (forall m, m <> k -> readers (step_reader k s) m = readers s m).
Proof.
  intros Hk. unfold step_reader. rewrite Hk. cbn. repeat split.
  - apply set_reader_same.
  - intros m Hm. now apply set_reader_other.
Qed.

(** The reader inside the block leaves it in at most three steps of its
    own and returns a pair. *)
Lemma reader_leaves (k : nat) (s : state) :
  readers s k <> R_enter ->
  exists (j : nat) (p : float * float),
    (j <= 3)%nat /\
    lock (fold_left step (repeat (Read k) j) s) = None /\
    returned (fold_left step (repeat (Read k) j) s) = (k, p) :: returned s /\
    readers (fold_left step (repeat (Read k) j) s) k = R_enter /\
    (forall m, m <> k ->
               readers (fold_left step (repeat (Read k) j) s) m = readers s m).
Proof.
  intros Hpc. destruct (readers s k) as [ | |temp|temp volt] eqn:Hk;
    [contradiction| | | ].
  - destruct (reader_step_temperature k s Hk) as (H1 & _ & R1 & O1).
    destruct (reader_step_voltage k _ _ H1) as (H2 & R2 & O2).
    destruct (reader_step_leave k _ _ _ H2) as (L3 & R3 & H3 & O3).
    exists 3%nat. eexists. split; [lia|].
    change (fold_left step (repeat (Read k) 3) s)
      with (step_reader k (step_reader k (step_reader k s))).
    split; [exact L3|]. split; [rewrite R3, R2, R1; reflexivity|].
    split; [exact H3|].
    intros m Hm. now rewrite O3, O2, O1.
  - destruct (reader_step_voltage k s _ Hk) as (H2 & R2 & O2).
    destruct (reader_step_leave k _ _ _ H2) as (L3 & R3 & H3 & O3).
    exists 2%nat. eexists. split; [lia|].
    change (fold_left step (repeat (Read k) 2) s)
      with (step_reader k (step_reader k s)).
    split; [exact L3|]. split; [rewrite R3, R2; reflexivity|].
    split; [exact H3|].
    intros m Hm. now rewrite O3, O2.
  - destruct (reader_step_leave k s _ _ Hk) as (L3 & R3 & H3 & O3).
    exists 1%nat. eexists. split; [lia|].
    change (fold_left step (repeat (Read k) 1) s) with (step_reader k s).
    split; [exact L3|]. split; [rewrite R3; reflexivity|].
    split; [exact H3|].
    intros m Hm. now rewrite O3.
Qed.

(** X17. No interleaving blocks a caller for good: from wherever a schedule
    has brought the threads, at most eight further steps make a given
    caller of [get_sensor_data] return a pair. *)
Theorem get_sensor_data_can_always_return :
  forall (schedule : list turn) (n : nat),
    exists (more : list turn) (p : float * float)
           (others : list (nat * (float * float))),
      (List.length more <= 8)%nat /\
      returned (run (schedule ++ more))
      = (n, p) :: others ++ returned (run schedule).
Proof.
  intros schedule n. unfold run. 
  pose proof (fold_consistent schedule init init_consistent) as [_ Hlock].
  set (s := fold_left step schedule init) in *.
  assert (Hmore : forall more, fold_left step (schedule ++ more) init
                               = fold_left step more s)
    by (intros more; apply fold_left_app).
  destruct (lock s) as [[|k]|] eqn:Hl.
  - destruct Hlock as [Hu Hidle].
    destruct (updater_leaves s Hu) as (j & Hj & Hleft).
    specialize (Hleft {| drift := 0; roll := 0; spike := 0; volt := 1.1 |}).
    set (d := {| drift := 0; roll := 0; spike := 0; volt := 1.1 |}) in *.
    destruct Hleft as (Hfree & Hreaders & Hret).
    exists (repeat (Simulate d) j ++ repeat (Read n) 4).
    exists (temperature (fold_left step (repeat (Simulate d) j) s),
            voltage (fold_left step (repeat (Simulate d) j) s)), [].
    split; [rewrite length_app, !repeat_length; lia|].
    rewrite Hmore, fold_left_app.
    rewrite reader_returns_when_free;
      [now rewrite Hret | exact Hfree | now rewrite Hreaders].
  - destruct Hlock as (Hu & _ & Hothers & Hk).
    assert (Hpc : readers s k <> R_enter)
      by (intros H; rewrite H in Hk; exact Hk).
    destruct (reader_leaves k s Hpc) as (j & p & Hj & Hfree & Hret & Hself & Hrest).
    destruct (Nat.eq_dec n k) as [->|Hne].
    + exists (repeat (Read k) j), p, []. split; [rewrite repeat_length; lia|].
      now rewrite Hmore, Hret.
    + exists (repeat (Read k) j ++ repeat (Read n) 4).
      exists (temperature (fold_left step (repeat (Read k) j) s),
              voltage (fold_left step (repeat (Read k) j) s)), [(k, p)].
      split; [rewrite length_app, !repeat_length; lia|].
      rewrite Hmore, fold_left_app.
      rewrite reader_returns_when_free;
        [now rewrite Hret | exact Hfree |].
      rewrite (Hrest n Hne). now apply Hothers.
  - destruct Hlock as (Hu & Hidle & _).
    exists (repeat (Read n) 4), (temperature s, voltage s), [].
    split; [rewrite repeat_length; lia|].
    rewrite Hmore. now rewrite reader_returns_when_free.
Qed.

(** The first update of a run, with no other thread scheduled. *)
Lemma uninterrupted_update_witness :
  lock init = None /\ updater init = U_enter /\
  (temperature
     (fold_left step
        (repeat (Simulate {| drift := 0.5; roll := 5; spike := 15;
                             volt := 1.15 |}) 5) init),
   voltage
     (fold_left step
        (repeat (Simulate {| drift := 0.5; roll := 5; spike := 15;
                             volt := 1.15 |}) 5) init))
  = (80.5, 1.15).
Proof.
  split; [reflexivity|]. split; [reflexivity|].
  exact (proj1 (uninterrupted_update
                  {| drift := 0.5; roll := 5; spike := 15; volt := 1.15 |}
                  init eq_refl eq_refl)).
Defined.

End ThreadRuns.

(** ** The entry point of the service *)

Section ServiceRuns.
Import Py ServiceMain.

(** X19. However the calls of the transport end, the service's [main]
    leaves with both objects built, the simulator stopped and the shutdown
    of the service requested, so that neither background loop goes through
    another iteration; the last record logged is the shutdown message, and
    no exception other than an exit request reaches the interpreter. *)
Theorem service_always_cleans_up :
  forall b : bus,
    exists (status : Z) (sim : HardwareSimulator.t)
           (svc : HealthMonitorService.t),
      fst (main b) = Exit status /\
      simulator (snd (main b)) = Some sim /\
      service (snd (main b)) = Some svc /\
      HardwareSimulator._running sim = false /\
      HealthMonitorService._shutdown_requested svc = true /\
      (forall ds, HardwareSimulator._simulation_loop sim ds = []) /\
      (forall sensor,
          HealthMonitorService._monitor_loop svc sensor = (svc, [])) /\
      last (log (snd (main b))) (INFO, ""%string)
      = (INFO, "Service has been shut down."%string).
Proof.
  intros [[u1|[m1| |c1]] [u2|[m2| |c2]] [u3|[m3| |c3]]];
    (eexists; eexists; eexists;
     split; [reflexivity|];
     split; [reflexivity|];
     split; [reflexivity|];
     split; [reflexivity|];
     split; [reflexivity|];
     split; [intros [|d ds]; reflexivity|];
     split; [intros [|data sensor]; reflexivity|reflexivity]).
Qed.



End ServiceRuns.
